(** * The documents page of the Meilisearch admin console

  A shallow embedding of [src/pages/index/documents.tsx]: the form
  validators, the two polled queries, the three document mutations and
  the click / submit handlers of the [Documents] component, followed by
  the properties of the page that the specification states. *)

From Stdlib Require Import ZArith NArith List Bool String Ascii Lia.
From Stdlib Require Import Floats.SpecFloat.
From stdpp Require Import base option list gmap.

Open Scope Z_scope.
Set Warnings "-register-all".

(** ** JavaScript numbers

  A JS [number] is an IEEE 754 binary64 value.  [spec_float] is the
  Standard Library's specification of such values, with the comparison
  [SFltb] that the [<] operator performs: any comparison with NaN is
  false. *)
Module Number.

Definition number := spec_float.

Definition prec : Z := 53.
Definition emax : Z := 1024.

(** An integer literal of the source as a binary64 value. *)
Definition of_Z (z : Z) : number := binary_normalize prec emax z 0 false.
Arguments of_Z : simpl never.

Definition NaN : number := S754_nan.
Definition Infinity : number := S754_infinity false.
Definition neg_Infinity : number := S754_infinity true.

Definition is_nan (v : number) : bool :=
  match v with S754_nan => true | _ => false end.

(** [a < b], [a >= b] and [a > b] of JavaScript. *)
Definition js_lt (a b : number) : bool := SFltb a b.
Definition js_ge (a b : number) : bool := SFleb b a.
Definition js_gt (a b : number) : bool := SFltb b a.

End Number.
Export Number.

(** ** JavaScript strings

  A JS string is a sequence of UTF-16 code units.  Every white-space and
  line-terminator code point that [String.prototype.trim] removes lies in
  the basic multilingual plane, so trimming works code unit by code
  unit. *)
Module JsString.

Definition code_unit := N.
Definition js_string := list code_unit.

(** A literal of the source (ASCII) as a JS string. *)
Definition js (s : string) : js_string :=
  List.map N_of_ascii (list_ascii_of_string s).

Definition comma : code_unit := 0x2C%N.

(** WhiteSpace and LineTerminator of ECMAScript. *)
Definition is_white_space (c : code_unit) : bool :=
  ((0x09 <=? c) && (c <=? 0x0D) || (c =? 0x20) || (c =? 0xA0)
   || (c =? 0x1680) || (0x2000 <=? c) && (c <=? 0x200A)
   || (c =? 0x2028) || (c =? 0x2029) || (c =? 0x202F) || (c =? 0x205F)
   || (c =? 0x3000) || (c =? 0xFEFF))%N.

Fixpoint trimStart (s : js_string) : js_string :=
  match s with
  | c :: s' => if is_white_space c then trimStart s' else s
  | [] => []
  end.

Definition trimEnd (s : js_string) : js_string :=
  rev (trimStart (rev s)).

(** [s.trim()] *)
Definition trim (s : js_string) : js_string := trimEnd (trimStart s).

(** [s.split(sep)] for a one-code-unit separator: the segments between
    the occurrences of [sep]; the empty string gives one empty segment. *)
Fixpoint split (sep : code_unit) (s : js_string) : list js_string :=
  match s with
  | [] => [[]]
  | c :: s' =>
      if (c =? sep)%N then [] :: split sep s'
      else match split sep s' with
           | seg :: segs => (c :: seg) :: segs
           | [] => [[c]]
           end
  end.

(** [segs.join(sep)] *)
Fixpoint join (sep : code_unit) (segs : list js_string) : js_string :=
  match segs with
  | [] => []
  | [seg] => seg
  | seg :: segs' => seg ++ sep :: join sep segs'
  end.

(** [s.length > 0] *)
Definition nonempty {A} (l : list A) : bool := (0 <? Z.of_nat (length l)).

End JsString.
Export JsString.

(** ** JSON values and documents *)
Module Json.

Inductive json :=
| JNull
| JBool (b : bool)
| JNumber (n : number)
| JString (s : js_string)
| JArray (l : list json)
| JObject (o : gmap js_string json).

(** A [Hit] of the search client: a JS object, [Record<string, any>]. *)
Abbreviation Hit := (gmap js_string json).

(** [doc[pk]]: the value of the document's own property, or [undefined]
    ([None]); what [Object.prototype] would add is not modelled. *)
Definition prop (doc : Hit) (k : js_string) : option json := doc !! k.

(** lodash [_.isArray] and [_.isObject] on a value [JSON.parse] returned:
    [isObject] holds of everything whose [typeof] is ['object'] except
    [null], arrays included. *)
Definition isArray (v : json) : bool :=
  match v with JArray _ => true | _ => false end.

Definition isObject (v : json) : bool :=
  match v with JArray _ | JObject _ => true | _ => false end.

End Json.
Export Json.

(** ** The page: data, effects and the handler monad *)

(** [searchForm.values] *)
Module SV.
Record t := mk {
  q : js_string;
  offset : number;
  limit : number;
  filter : js_string;
  sort : js_string;
}.
End SV.

(** The options object handed to [indexClient.search]. *)
Module SearchParams.
Record t := mk {
  limit : number;
  offset : number;
  filter : js_string;
  sort : list js_string;
}.
End SearchParams.

(** What the search client returns from a mutating call (an enqueued task)
    and what a rejected call carries; both are opaque to the page, which
    only hands them to the notification helpers. *)
Inductive Task := EnqueuedTask (taskUid : Z).
Inductive Error := ApiError (message : js_string).

(** How a request to the remote service settles. *)
Inductive outcome := Fulfilled (t : Task) | Rejected (e : Error).

(** Exceptions a handler can end with. *)
Inductive exn := SyntaxError | TypeError | NotAllowedError.

(** The closure stored in the confirm modal, with the variables it
    captured: [() => removeDocumentsMutation.mutate([doc[pk]])]. *)
Inductive callback := RemoveDocumentsMutate (docId : list (option json)).

(** Everything a handler does to the outside of the component. *)
Inductive effect :=
| ShowNotification (color message : js_string)
| ShowTaskSubmitNotification (t : Task)
| ShowTaskErrorNotification (e : Error)
| ConsoleError (e : Error)
| ConsoleDebug (label : js_string)
| Refetch                                   (* searchDocumentsQuery.refetch() *)
| Call_addDocuments (docs : list json)
| Call_deleteDocuments (docId : list (option json))
| Call_updateDocuments (docs : list json)
| OpenConfirmModal (title : js_string) (onConfirm : callback).

(** The component's state: the two forms, the three [useState] cells and
    the modal that [openConfirmModal] put on screen. *)
Record State := mkState {
  searchForm_values : SV.t;
  searchForm_errors : option js_string;
  addDocumentsForm_documents : list json;
  addDocumentsForm_errors : option js_string;
  isAddDocumentsModalOpen : bool;
  isEditDocumentsModalOpen : bool;
  editingDocument : option Hit;
  confirmModal : option callback;
}.

(** The values the hooks give the current render: the [index] search
    parameter of the URL ([null] is [None]) and the data of the
    primary-key query ([undefined] or [null] is [None]). *)
Record Env := mkEnv {
  index_param : option js_string;
  indexPrimaryKeyQuery_data : option js_string;
}.

Inductive completion (A : Type) :=
| Normal (a : A)
| Throw (e : exn).
Arguments Normal {A} a.
Arguments Throw {A} e.

(** A handler: from the state before to how it completes, the state after
    and the effects it performed, in order. *)
Definition M (A : Type) : Type := State -> completion A * State * list effect.

Definition ret {A} (a : A) : M A := fun st => (Normal a, st, []).

Definition bind {A B} (c : M A) (k : A -> M B) : M B := fun st =>
  match c st with
  | (Normal a, st1, tr1) =>
      match k a st1 with (r, st2, tr2) => (r, st2, tr1 ++ tr2) end
  | (Throw e, st1, tr1) => (Throw e, st1, tr1)
  end.

Definition emit (e : effect) : M unit := fun st => (Normal tt, st, [e]).
Definition get : M State := fun st => (Normal st, st, []).
Definition modify (f : State -> State) : M unit := fun st => (Normal tt, f st, []).
Definition throw {A} (e : exn) : M A := fun st => (Throw e, st, []).

Notation "x <- c ;; k" := (bind c (fun x => k))
  (at level 100, c at next level, right associativity).
Notation "c ;; k" := (bind c (fun _ => k))
  (at level 100, right associativity).

Definition state_after {A} (c : M A) (st : State) : State := snd (fst (c st)).
Definition trace {A} (c : M A) (st : State) : list effect := snd (c st).
Definition result {A} (c : M A) (st : State) : completion A := fst (fst (c st)).

(** State setters. *)
Definition set_searchForm_errors (e : option js_string) (st : State) : State :=
  mkState (searchForm_values st) e (addDocumentsForm_documents st)
    (addDocumentsForm_errors st) (isAddDocumentsModalOpen st)
    (isEditDocumentsModalOpen st) (editingDocument st) (confirmModal st).

Definition set_addDocumentsForm (docs : list json) (e : option js_string)
    (st : State) : State :=
  mkState (searchForm_values st) (searchForm_errors st) docs e
    (isAddDocumentsModalOpen st) (isEditDocumentsModalOpen st)
    (editingDocument st) (confirmModal st).

Definition setIsAddDocumentsModalOpen (b : bool) : M unit := modify (fun st =>
  mkState (searchForm_values st) (searchForm_errors st)
    (addDocumentsForm_documents st) (addDocumentsForm_errors st) b
    (isEditDocumentsModalOpen st) (editingDocument st) (confirmModal st)).

Definition setIsEditDocumentsModalOpen (b : bool) : M unit := modify (fun st =>
  mkState (searchForm_values st) (searchForm_errors st)
    (addDocumentsForm_documents st) (addDocumentsForm_errors st)
    (isAddDocumentsModalOpen st) b (editingDocument st) (confirmModal st)).

Definition setEditingDocument (d : option Hit) : M unit := modify (fun st =>
  mkState (searchForm_values st) (searchForm_errors st)
    (addDocumentsForm_documents st) (addDocumentsForm_errors st)
    (isAddDocumentsModalOpen st) (isEditDocumentsModalOpen st) d
    (confirmModal st)).

Definition set_confirmModal (m : option callback) (st : State) : State :=
  mkState (searchForm_values st) (searchForm_errors st)
    (addDocumentsForm_documents st) (addDocumentsForm_errors st)
    (isAddDocumentsModalOpen st) (isEditDocumentsModalOpen st)
    (editingDocument st) m.

(** ** The component *)

(** [!!v] for a value that is a string, [undefined] or [null]. *)
Definition truthy (v : option js_string) : bool :=
  match v with
  | Some (_ :: _) => true
  | _ => false
  end.

(** [searchParams.get('index')?.trim()] *)
Definition currentIndex (env : Env) : option js_string :=
  option_map trim (index_param env).

(** [indexClient?.uid]: the client exists when [currentIndex] is truthy, and
    its uid is that index name. *)
Definition indexClient_uid (env : Env) : option js_string :=
  if truthy (currentIndex env) then currentIndex env else None.

(** A value inside a template literal. *)
Definition template (v : option js_string) : js_string :=
  match v with
  | Some s => s
  | None => js "undefined"
  end.

(** *** The search form *)

Definition searchForm_initialValues : SV.t :=
  SV.mk [] (of_Z 0) (of_Z 20) [] [].

Definition limit_message : js_string :=
  js "limit search value allow (<500) in this ui console for performance".

(** [validate.limit]: [null] ([None]) accepts, a string is the error. *)
Definition searchForm_validate_limit (value : number) : option js_string :=
  if js_lt value (of_Z 500) then None else Some limit_message.

(** [searchForm.onSubmit(handler)] of [@mantine/form]: the validators run,
    their errors are stored, and [handler] is called with the values only
    when there is no error. *)
Definition searchForm_onSubmit (handler : SV.t -> M unit) : M unit :=
  st <- get ;;
  let errors := searchForm_validate_limit (SV.limit (searchForm_values st)) in
  modify (set_searchForm_errors errors) ;;
  match errors with
  | None => handler (searchForm_values st)
  | Some _ => ret tt
  end.

(** *** The add-documents form *)

Definition documents_message : js_string :=
  js "Added documents should be JSON Array whose length > 0".

(** [validate.documents]; the field has the type [object[]]. *)
Definition addDocumentsForm_validate_documents (value : list json)
    : M (option js_string) :=
  if nonempty value then ret None
  else
    let msg := documents_message in
    emit (ShowNotification (js "yellow") msg) ;;
    ret (Some msg).

Definition addDocumentsForm_onSubmit (handler : list json -> M unit) : M unit :=
  st <- get ;;
  let documents := addDocumentsForm_documents st in
  errors <- addDocumentsForm_validate_documents documents ;;
  modify (set_addDocumentsForm documents errors) ;;
  match errors with
  | None => handler documents
  | Some _ => ret tt
  end.

(** [addDocumentsForm.reset()]: back to [initialValues], no errors. *)
Definition addDocumentsForm_reset : M unit :=
  modify (set_addDocumentsForm [] None).

(** [addDocumentsForm.setFieldValue('documents', arr)] *)
Definition addDocumentsForm_setFieldValue_documents (arr : list json) : M unit :=
  modify (set_addDocumentsForm arr None).

(** *** The two queries *)

Record QueryOptions := mkQueryOptions {
  enabled : bool;
  keepPreviousData : bool;
  refetchOnMount_always : bool;
  refetchInterval : Z;       (* milliseconds *)
}.

Definition indexPrimaryKeyQuery_options (env : Env) : QueryOptions :=
  mkQueryOptions (truthy (currentIndex env)) true true 30000.

Definition searchDocumentsQuery_options (env : Env) : QueryOptions :=
  mkQueryOptions (truthy (currentIndex env)) true true 5000.

(** [{ ...a, ...b }] for two objects that both have the five fields of the
    form values: every field comes from the second. *)
Definition spread (a b : SV.t) : SV.t :=
  SV.mk (SV.q b) (SV.offset b) (SV.limit b) (SV.filter b) (SV.sort b).

(** The [sort] option of the search call. *)
Definition sort_option (sort : js_string) : list js_string :=
  List.map (fun v => trim v)
    (List.filter (fun v => nonempty (trim v)) (split comma sort)).

(** The query function of [searchDocumentsQuery]: the arguments of
    [indexClient.search], from the form values of the closure and the form
    values in the query key. *)
Definition searchDocumentsQuery_fn (values queryKey3 : SV.t)
    : js_string * SearchParams.t :=
  let v := spread values queryKey3 in
  (SV.q v,
   SearchParams.mk (SV.limit v) (SV.offset v) (SV.filter v)
     (sort_option (SV.sort v))).

(** [searchDocumentsQuery.refetch()] *)
Definition searchDocumentsQuery_refetch : M unit := emit Refetch.

(** *** The three mutations

    [mutate(variables)] of a [useMutation]: the mutation function issues
    its request, and when the request settles [onSuccess] is called with
    its task or [onError] with its error.  The source calls the endpoints
    through [indexClient!], asserting that the index client exists. *)
Definition mutate {V} (mutationFn : V -> effect)
    (onSuccess : Task -> M unit) (onError : Error -> M unit)
    (variables : V) (o : outcome) : M unit :=
  emit (mutationFn variables) ;;
  match o with
  | Fulfilled t => onSuccess t
  | Rejected e => onError e
  end.

Definition mutation_onError (error : Error) : M unit :=
  emit (ConsoleError error) ;;
  emit (ShowTaskErrorNotification error).

Definition addDocumentsMutation : list json -> outcome -> M unit :=
  mutate Call_addDocuments
    (fun t =>
       emit (ShowTaskSubmitNotification t) ;;
       setIsAddDocumentsModalOpen false ;;
       addDocumentsForm_reset)
    mutation_onError.

Definition removeDocumentsMutation : list (option json) -> outcome -> M unit :=
  mutate Call_deleteDocuments
    (fun t =>
       emit (ShowTaskSubmitNotification t) ;;
       searchDocumentsQuery_refetch)
    mutation_onError.

Definition editDocumentMutation : list json -> outcome -> M unit :=
  mutate Call_updateDocuments
    (fun t =>
       setIsEditDocumentsModalOpen false ;;
       emit (ShowTaskSubmitNotification t) ;;
       searchDocumentsQuery_refetch)
    mutation_onError.

(** *** The clipboard *)

(** A [ClipboardItem]: for each MIME type it offers, the text of its blob. *)
Definition ClipboardItem := list (js_string * js_string).

Definition types (item : ClipboardItem) : list js_string := List.map fst item.

Definition includes (t : js_string) (l : list js_string) : bool :=
  existsb (fun x => bool_decide (x = t)) l.

Fixpoint getType (item : ClipboardItem) (t : js_string) : option js_string :=
  match item with
  | [] => None
  | (t', text) :: item' =>
      if bool_decide (t' = t) then Some text else getType item' t
  end.

(** How [navigator.clipboard.read()] settles. *)
Inductive clipboard_read :=
| ReadFulfilled (items : list ClipboardItem)
| ReadRejected.

(** The array a JSON value is, when [_.isArray] holds of it. *)
Definition elements (v : json) : list json :=
  match v with
  | JArray l => l
  | _ => []
  end.

(** *** The handlers *)

Definition onSearchSubmit : M unit := searchDocumentsQuery_refetch.

Section Clipboard.

(** [JSON.parse]: the value a text denotes, or [None] when it throws a
    [SyntaxError]. *)
Variable JSON_parse : js_string -> option json.

Definition onAddDocumentsClick (clipboard : clipboard_read) : M unit :=
  setIsAddDocumentsModalOpen true ;;
  match clipboard with
  | ReadRejected => throw NotAllowedError
  | ReadFulfilled [] => throw TypeError
  | ReadFulfilled (firstContent :: _) =>
      if includes (js "text/plain") (types firstContent) then
        match getType firstContent (js "text/plain") with
        | None => throw NotAllowedError
        | Some text =>
            match JSON_parse text with
            | None => throw SyntaxError
            | Some json =>
                let arr :=
                  if isArray json then elements json
                  else if isObject json then [json] else [] in
                emit (ConsoleDebug (js "onAddDocumentsClick paste clipboard")) ;;
                if nonempty arr
                then addDocumentsForm_setFieldValue_documents arr
                else ret tt
            end
        end
      else ret tt
  end.

End Clipboard.

Definition onAddDocumentsSubmit (val : list json) (o : outcome) : M unit :=
  addDocumentsMutation val o.

Definition onAddDocumentsJsonEditorUpdate (updated_src : list json) : M unit :=
  addDocumentsForm_setFieldValue_documents updated_src.

Definition onEditDocumentJsonEditorUpdate (updated_src : Hit) : M unit :=
  setEditingDocument (Some updated_src).

(** [openConfirmModal] of [@mantine/modals], and the user's answer to the
    modal on screen: the modal closes, and [Confirm] runs its [onConfirm].
    The library stacks the modals it is asked to open; the state keeps the
    one opened last, which is the one on screen when each modal is answered
    before the next click on Delete. *)
Definition openConfirmModal (title : js_string) (onConfirm : callback) : M unit :=
  emit (OpenConfirmModal title onConfirm) ;;
  modify (set_confirmModal (Some onConfirm)).

Definition run_callback (cb : callback) (o : outcome) : M unit :=
  match cb with
  | RemoveDocumentsMutate docId => removeDocumentsMutation docId o
  end.

Inductive answer := Confirm | Cancel.

Definition answerConfirmModal (a : answer) (o : outcome) : M unit :=
  st <- get ;;
  match confirmModal st with
  | None => ret tt
  | Some cb =>
      modify (set_confirmModal None) ;;
      match a with
      | Confirm => run_callback cb o
      | Cancel => ret tt
      end
  end.

(** The message of the danger notification, a template literal. *)
Definition danger_message (env : Env) : js_string :=
  js "Document deletion require the valid primaryKey in index "
  ++ template (indexClient_uid env).

Definition onClickDocumentDel (env : Env) (doc : Hit) : M unit :=
  let pk := indexPrimaryKeyQuery_data env in
  emit (ConsoleDebug (js "onClickDocumentDel")) ;;
  if truthy pk then
    match pk with
    | Some pk =>
        openConfirmModal (js "Delete a document")
          (RemoveDocumentsMutate [prop doc pk])
    | None => ret tt
    end
  else
    emit (ShowNotification (js "danger") (danger_message env)).

Definition onClickDocumentUpdate (doc : Hit) : M unit :=
  setIsEditDocumentsModalOpen true ;;
  setEditingDocument (Some doc).

(** [editingDocument && editDocumentMutation.mutate([editingDocument])]:
    the state holds [undefined] or an object, and every object is truthy. *)
Definition onSubmitDocumentUpdate (o : outcome) : M unit :=
  st <- get ;;
  match editingDocument st with
  | Some doc => editDocumentMutation [JObject doc] o
  | None => ret tt
  end.

(** The [onClose] of the two modals. *)
Definition onCloseAddDocumentsModal : M unit :=
  setIsAddDocumentsModalOpen false ;;
  addDocumentsForm_reset.

Definition onCloseEditDocumentsModal : M unit :=
  setIsEditDocumentsModalOpen false ;;
  setEditingDocument None.

(** *** What a trace contains *)

Definition is_refetch (e : effect) : bool :=
  match e with Refetch => true | _ => false end.

Definition is_success_notification (e : effect) : bool :=
  match e with ShowTaskSubmitNotification _ => true | _ => false end.

Definition is_notification (e : effect) : bool :=
  match e with
  | ShowNotification _ _ | ShowTaskSubmitNotification _
  | ShowTaskErrorNotification _ => true
  | _ => false
  end.

Definition count (p : effect -> bool) (tr : list effect) : nat :=
  length (List.filter p tr).

(** The arguments of the calls of each endpoint, in order. *)
Definition addDocuments_calls (tr : list effect) : list (list json) :=
  omap (fun e => match e with Call_addDocuments d => Some d | _ => None end) tr.

Definition deleteDocuments_calls (tr : list effect) : list (list (option json)) :=
  omap (fun e => match e with Call_deleteDocuments d => Some d | _ => None end) tr.

Definition updateDocuments_calls (tr : list effect) : list (list json) :=
  omap (fun e => match e with Call_updateDocuments d => Some d | _ => None end) tr.

(** The initial state of the component. *)
Definition initialState : State :=
  mkState searchForm_initialValues None [] None false false None None.

(** *** Submitting the forms *)

(** Submitting the search form. *)
Definition submitSearchForm : M unit :=
  searchForm_onSubmit (fun _ => onSearchSubmit).

Definition submitAddDocumentsForm (o : outcome) : M unit :=
  addDocumentsForm_onSubmit (fun val => onAddDocumentsSubmit val o).

(** *** The page as a machine driven by the user's actions *)

(** [searchForm.getInputProps(field).onChange]: the user edits a field of
    the search form.  Only the values are followed: the error the form may
    clear for the edited field and the fetch that react-query starts for
    the new query key are left out. *)
Definition searchForm_setValues (values : SV.t) : M unit := modify (fun st =>
  mkState values (searchForm_errors st) (addDocumentsForm_documents st)
    (addDocumentsForm_errors st) (isAddDocumentsModalOpen st)
    (isEditDocumentsModalOpen st) (editingDocument st) (confirmModal st)).

(** What the user can do on the page, each with what the outside world
    answers during it: the clipboard's content, how the request settles. *)
Inductive event :=
| SearchFormChange (values : SV.t)
| SearchSubmit
| AddDocumentsClick (clipboard : clipboard_read)
| AddDocumentsJsonEditorUpdate (updated_src : list json)
| AddDocumentsSubmit (o : outcome)
| CloseAddDocumentsModal
| ClickDocumentUpdate (doc : Hit)
| EditDocumentJsonEditorUpdate (updated_src : Hit)
| SubmitDocumentUpdate (o : outcome)
| CloseEditDocumentsModal
| ClickDocumentDel (doc : Hit)
| AnswerConfirmModal (a : answer) (o : outcome).

Section Machine.

Variable JSON_parse : js_string -> option json.

Definition handle (env : Env) (ev : event) : M unit :=
  match ev with
  | SearchFormChange values => searchForm_setValues values
  | SearchSubmit => submitSearchForm
  | AddDocumentsClick clipboard => onAddDocumentsClick JSON_parse clipboard
  | AddDocumentsJsonEditorUpdate src => onAddDocumentsJsonEditorUpdate src
  | AddDocumentsSubmit o => submitAddDocumentsForm o
  | CloseAddDocumentsModal => onCloseAddDocumentsModal
  | ClickDocumentUpdate doc => onClickDocumentUpdate doc
  | EditDocumentJsonEditorUpdate src => onEditDocumentJsonEditorUpdate src
  | SubmitDocumentUpdate o => onSubmitDocumentUpdate o
  | CloseEditDocumentsModal => onCloseEditDocumentsModal
  | ClickDocumentDel doc => onClickDocumentDel env doc
  | AnswerConfirmModal a o => answerConfirmModal a o
  end.

(** A session: the actions in order, each in the render it happens in.  A
    handler that throws leaves the state it reached. *)
Fixpoint run (evs : list (Env * event)) (st : State) : State * list effect :=
  match evs with
  | [] => (st, [])
  | (env, ev) :: evs' =>
      let st1 := state_after (handle env ev) st in
      (fst (run evs' st1), trace (handle env ev) st ++ snd (run evs' st1))
  end.

End Machine.

(** ** The words of the specification *)

(** The limit validator rejects a value exactly when the value is greater
    than or equal to 500. *)
Definition rejects_iff_ge_500 (v : number) : Prop :=
  searchForm_validate_limit v <> None <-> js_ge v (of_Z 500) = true.

(** The forwarded sort list in the words of the specification: the
    expression split on commas, without the segments that are empty or
    white space only, each remaining segment trimmed. *)
Definition is_empty (seg : js_string) : bool :=
  match seg with [] => true | _ :: _ => false end.

Definition whitespace_only (seg : js_string) : bool :=
  forallb is_white_space seg.

Definition forwarded_sort (sort : js_string) : list js_string :=
  List.map trim
    (List.filter (fun seg => negb (is_empty seg || whitespace_only seg))
       (split comma sort)).

(** The text the handler parses: the [text/plain] blob of the first item. *)
Definition clipboard_text (clipboard : clipboard_read) : option js_string :=
  match clipboard with
  | ReadFulfilled (firstContent :: _) =>
      if includes (js "text/plain") (types firstContent)
      then getType firstContent (js "text/plain")
      else None
  | _ => None
  end.

(** The default batch a parse result gives, in the words of the
    specification: a JSON array is used as it is, a JSON object becomes a
    one-element array, and a parse failure, a value that is neither, or an
    empty result gives nothing. *)
Definition default_batch (parsed : option json) : option (list json) :=
  match parsed with
  | Some (JArray (d :: ds)) => Some (d :: ds)
  | Some (JObject o) => Some [JObject o]
  | _ => None
  end.

(** [setIsAddDocumentsModalOpen(true)] applied to a state. *)
Definition opened (st : State) : State :=
  state_after (setIsAddDocumentsModalOpen true) st.

(** An index is selected when [currentIndex] is truthy. *)
Definition index_selected (env : Env) : bool := truthy (currentIndex env).

(** ** Sample states, documents and sessions *)

Definition with_limit (v : number) : State :=
  mkState (SV.mk [] (of_Z 0) v [] []) None [] None false false None None.

Definition with_documents (docs : list json) : State :=
  mkState searchForm_initialValues None docs None true false None None.

Definition editing (d : option Hit) : State :=
  mkState searchForm_initialValues None [] None false true d None.

Definition doc_id_1 : Hit := {[ js "id" := JNumber (of_Z 1) ]}.

Definition env_pk (pk : option js_string) : Env := mkEnv (Some (js "movies")) pk.

Definition delete_session : list (Env * event) :=
  [(env_pk (Some (js "id")), ClickDocumentDel doc_id_1);
   (env_pk (Some (js "id")),
    AnswerConfirmModal Confirm (Fulfilled (EnqueuedTask 9)))].

(** ** The document list and the observers of a session *)

(** One block of [docList]: its React key, the document the JSON viewer
    shows, and what its Update and Delete buttons do when clicked. *)
Record DocRow := mkDocRow {
  row_key : nat;
  row_src : Hit;
  row_onUpdate : event;
  row_onDelete : event;
}.

(** [searchDocumentsQuery.data?.hits.map((d, i) => ...)]: [None] while the
    query has no data. *)
Definition docList (hits : option (list Hit)) : option (list DocRow) :=
  option_map
    (imap (fun i d => mkDocRow i d (ClickDocumentUpdate d) (ClickDocumentDel d)))
    hits.

(** The requests to the three mutating endpoints, and the notifications
    that report how a request settled. *)
Definition is_call (e : effect) : bool :=
  match e with
  | Call_addDocuments _ | Call_deleteDocuments _ | Call_updateDocuments _ => true
  | _ => false
  end.

Definition is_task_notification (e : effect) : bool :=
  match e with
  | ShowTaskSubmitNotification _ | ShowTaskErrorNotification _ => true
  | _ => false
  end.

(** The actions of a session that confirm the modal, and the clicks on
    Delete in a render that has a primary key. *)
Definition is_confirm (x : Env * event) : bool :=
  match snd x with
  | AnswerConfirmModal Confirm _ => true
  | _ => false
  end.

Definition is_delete_click (x : Env * event) : bool :=
  match snd x with
  | ClickDocumentDel _ => truthy (indexPrimaryKeyQuery_data (fst x))
  | _ => false
  end.

(** 1 when a confirm modal is on screen. *)
Definition modal_open (st : State) : nat :=
  match confirmModal st with
  | Some _ => 1
  | None => 0
  end.

(** A click on Update, the edits made in the JSON editor, and the submit. *)
Definition edit_session (env : Env) (doc : Hit) (srcs : list Hit) (o : outcome)
    : list (Env * event) :=
  (env, ClickDocumentUpdate doc)
  :: List.map (fun src => (env, EditDocumentJsonEditorUpdate src)) srcs
  ++ [(env, SubmitDocumentUpdate o)].

(** The characters of a sort expression that carry nothing. *)
Definition is_blank (c : code_unit) : bool :=
  is_white_space c || (c =? comma)%N.

(** The edit modal is only open over a document. *)
Definition edit_modal_has_document (st : State) : Prop :=
  isEditDocumentsModalOpen st = true -> editingDocument st <> None.

(** Sample sessions: a batch typed in the editor and submitted, a click
    on Update, and a clipboard holding one text item. *)
Definition add_session : list (Env * event) :=
  [(env_pk None, AddDocumentsJsonEditorUpdate [JObject doc_id_1]);
   (env_pk None, AddDocumentsSubmit (Fulfilled (EnqueuedTask 4)))].

Definition update_click_session : list (Env * event) :=
  [(env_pk None, ClickDocumentUpdate doc_id_1)].




(** ** Requests in flight

    [mutate] runs a request to its end inside one action.  On the page the
    response comes later, and the user can act in between: here the two
    halves are apart, [mutate_request] up to the call of the endpoint and
    [settle] for the [onSuccess] or [onError] of the same mutation once the
    request settles. *)
Inductive request := AddRequest | RemoveRequest | EditRequest.

Definition request_eqb (r r' : request) : bool :=
  match r, r' with
  | AddRequest, AddRequest | RemoveRequest, RemoveRequest
  | EditRequest, EditRequest => true
  | _, _ => false
  end.

Definition mutate_request {V} (mutationFn : V -> effect) (variables : V) : M unit :=
  emit (mutationFn variables).

(** The [onSuccess] of the three [useMutation] calls. *)
Definition onSuccess (r : request) (t : Task) : M unit :=
  match r with
  | AddRequest =>
      emit (ShowTaskSubmitNotification t) ;;
      setIsAddDocumentsModalOpen false ;;
      addDocumentsForm_reset
  | RemoveRequest =>
      emit (ShowTaskSubmitNotification t) ;;
      searchDocumentsQuery_refetch
  | EditRequest =>
      setIsEditDocumentsModalOpen false ;;
      emit (ShowTaskSubmitNotification t) ;;
      searchDocumentsQuery_refetch
  end.

Definition settle (r : request) (o : outcome) : M unit :=
  match o with
  | Fulfilled t => onSuccess r t
  | Rejected e => mutation_onError e
  end.

(** The three handlers that call [mutate], up to the call. *)
Definition submitAddDocumentsForm_request : M unit :=
  addDocumentsForm_onSubmit (fun val => mutate_request Call_addDocuments val).

Definition onSubmitDocumentUpdate_request : M unit :=
  st <- get ;;
  match editingDocument st with
  | Some doc => mutate_request Call_updateDocuments [JObject doc]
  | None => ret tt
  end.

Definition answerConfirmModal_request (a : answer) : M unit :=
  st <- get ;;
  match confirmModal st with
  | None => ret tt
  | Some (RemoveDocumentsMutate docId) =>
      modify (set_confirmModal None) ;;
      match a with
      | Confirm => mutate_request Call_deleteDocuments docId
      | Cancel => ret tt
      end
  end.

(** What happens on the page, one thing at a time: the user's actions and
    the responses of the remote service. *)
Inductive action :=
| Change (values : SV.t)
| Search
| OpenAdd (clipboard : clipboard_read)
| EditAdd (updated_src : list json)
| SubmitAdd
| CloseAdd
| OpenEdit (doc : Hit)
| EditEdit (updated_src : Hit)
| SubmitEdit
| CloseEdit
| ClickDelete (doc : Hit)
| Answer (a : answer)
| Settles (r : request) (o : outcome).

(** The page between two actions: the component's state, the requests that
    have not settled yet, and the effects so far. *)
Record config := mkConfig {
  page : State;
  in_flight : list request;
  log : list effect;
}.

Definition requests_issued (tr : list effect) : list request :=
  omap (fun e =>
          match e with
          | Call_addDocuments _ => Some AddRequest
          | Call_deleteDocuments _ => Some RemoveRequest
          | Call_updateDocuments _ => Some EditRequest
          | _ => None
          end) tr.

Fixpoint remove_request (r : request) (l : list request) : list request :=
  match l with
  | [] => []
  | r' :: l' => if request_eqb r r' then l' else r' :: remove_request r l'
  end.

(** A response needs its request in flight, an answer needs a modal on
    screen; everything else can happen at any time. *)
Definition possible (a : action) (c : config) : bool :=
  match a with
  | Settles r _ => existsb (request_eqb r) (in_flight c)
  | Answer _ => match confirmModal (page c) with Some _ => true | None => false end
  | _ => true
  end.

Section Asynchronous.

Variable JSON_parse : js_string -> option json.

Definition perform (env : Env) (a : action) : M unit :=
  match a with
  | Change values => searchForm_setValues values
  | Search => submitSearchForm
  | OpenAdd clipboard => onAddDocumentsClick JSON_parse clipboard
  | EditAdd src => onAddDocumentsJsonEditorUpdate src
  | SubmitAdd => submitAddDocumentsForm_request
  | CloseAdd => onCloseAddDocumentsModal
  | OpenEdit doc => onClickDocumentUpdate doc
  | EditEdit src => onEditDocumentJsonEditorUpdate src
  | SubmitEdit => onSubmitDocumentUpdate_request
  | CloseEdit => onCloseEditDocumentsModal
  | ClickDelete doc => onClickDocumentDel env doc
  | Answer a => answerConfirmModal_request a
  | Settles r o => settle r o
  end.

Definition step (env : Env) (a : action) (c : config) : option config :=
  if possible a c then
    Some (mkConfig
            (state_after (perform env a) (page c))
            (match a with
             | Settles r _ => remove_request r (in_flight c)
             | _ => in_flight c
             end ++ requests_issued (trace (perform env a) (page c)))
            (log c ++ trace (perform env a) (page c)))
  else None.

(** A run of the page; [None] when an action of the list cannot happen
    where it stands. *)
Fixpoint exec (acts : list (Env * action)) (c : config) : option config :=
  match acts with
  | [] => Some c
  | (env, a) :: acts' =>
      match step env a c with
      | Some c' => exec acts' c'
      | None => None
      end
  end.

End Asynchronous.

(** The page with nothing in flight and nothing done yet. *)
Definition start (st : State) : config := mkConfig st [] [].

(** Calls, notifications and requests in flight add up. *)
Definition balanced (c : config) : Prop :=
  count is_call (log c)
  = (count is_task_notification (log c) + length (in_flight c))%nat.

(** * Properties *)

(** ** Numbers and the order of JavaScript *)

Lemma of_Z_500 : of_Z 500 = S754_finite false 8796093022208000 (-44).
Proof. vm_compute. reflexivity. Qed.

Lemma of_Z_0 : of_Z 0 = S754_zero false.
Proof. vm_compute. reflexivity. Qed.

Opaque of_Z.

Lemma compare_cont_Eq_antisym (p q : positive) :
  Pos.compare_cont Eq p q = CompOpp (Pos.compare_cont Eq q p).
Proof. rewrite (Pos.compare_cont_antisym q p Eq). reflexivity. Qed.

Lemma SFcompare_antisym (a b : number) :
  SFcompare a b = option_map CompOpp (SFcompare b a).
Proof.
  destruct a as [sa|sa| |sa ma ea], b as [sb|sb| |sb mb eb]; simpl;
    try reflexivity;
    try (destruct sa; reflexivity); try (destruct sb; reflexivity);
    try (destruct sa, sb; reflexivity).
  rewrite (Z.compare_antisym eb ea), (compare_cont_Eq_antisym ma mb).
  destruct sa, sb; simpl; try reflexivity;
    destruct (eb ?= ea); simpl; try reflexivity;
    destruct (Pos.compare_cont Eq mb ma); reflexivity.
Qed.

(** [a < b] is false exactly when [a >= b] or one of the two is NaN. *)
Lemma js_lt_false (a b : number) :
  js_lt a b = false <-> js_ge a b = true \/ is_nan a = true \/ is_nan b = true.
Proof.
  unfold js_lt, js_ge, SFltb, SFleb. rewrite (SFcompare_antisym b a).
  destruct a as [sa|sa| |sa ma ea], b as [sb|sb| |sb mb eb]; simpl;
    try (split; [intros _; auto | reflexivity]);
    try (destruct sa); try (destruct sb); simpl;
    try (split; [intros _; auto | reflexivity]);
    try (split; [discriminate | intros [H|[H|H]]; discriminate]).
  all: destruct (ea ?= eb); simpl;
    try (destruct (Pos.compare_cont Eq ma mb)); simpl;
    try (split; [intros _; auto | reflexivity]);
    try (split; [discriminate | intros [H|[H|H]]; discriminate]).
Qed.

(** Below zero is below 500. *)
Lemma js_lt_0_500 (v : number) :
  js_lt v (of_Z 0) = true -> js_lt v (of_Z 500) = true.
Proof.
  rewrite of_Z_500, of_Z_0. unfold js_lt, SFltb, SFcompare.
  destruct v as [s|s| |s m e]; try destruct s;
    first [discriminate | reflexivity].
Qed.

(** ** The monad: running a handler *)

Lemma trace_bind {A B} (c : M A) (k : A -> M B) (st : State) (a : A) :
  result c st = Normal a ->
  trace (bind c k) st = trace c st ++ trace (k a) (state_after c st).
Proof.
  unfold result, trace, state_after, bind.
  destruct (c st) as [[r st1] tr1]; simpl. intros ->.
  destruct (k a st1) as [[r2 st2] tr2]. reflexivity.
Qed.

Lemma state_after_bind {A B} (c : M A) (k : A -> M B) (st : State) (a : A) :
  result c st = Normal a ->
  state_after (bind c k) st = state_after (k a) (state_after c st).
Proof.
  unfold result, state_after, bind.
  destruct (c st) as [[r st1] tr1]; simpl. intros ->.
  destruct (k a st1) as [[r2 st2] tr2]. reflexivity.
Qed.

(** A handler that throws keeps the state and the effects it reached. *)
Lemma bind_throw {A B} (c : M A) (k : A -> M B) (st : State) (e : exn) :
  result c st = Throw e ->
  bind c k st = (Throw e, state_after c st, trace c st).
Proof.
  unfold result, state_after, trace, bind.
  destruct (c st) as [[r st1] tr1]; simpl. intros ->. reflexivity.
Qed.

Lemma count_app (p : effect -> bool) (t1 t2 : list effect) :
  count p (t1 ++ t2) = (count p t1 + count p t2)%nat.
Proof. unfold count. rewrite List.filter_app, length_app. reflexivity. Qed.

(** ** The search form *)

Lemma searchForm_validate_limit_cases (v : number) :
  (js_lt v (of_Z 500) = true /\ searchForm_validate_limit v = None) \/
  (js_lt v (of_Z 500) = false /\ searchForm_validate_limit v = Some limit_message).
Proof.
  unfold searchForm_validate_limit. destruct (js_lt v (of_Z 500)); auto.
Qed.

Lemma submitSearchForm_run (st : State) :
  submitSearchForm st =
  match searchForm_validate_limit (SV.limit (searchForm_values st)) with
  | None => (Normal tt, set_searchForm_errors None st, [Refetch])
  | Some msg => (Normal tt, set_searchForm_errors (Some msg) st, [])
  end.
Proof.
  unfold submitSearchForm, searchForm_onSubmit, bind, get, modify; simpl.
  destruct (searchForm_validate_limit _); reflexivity.
Qed.

(** The limit validator is total and has only these two results. *)
Lemma searchForm_validate_limit_None (v : number) :
  searchForm_validate_limit v = None <-> js_lt v (of_Z 500) = true.
Proof.
  destruct (searchForm_validate_limit_cases v) as [[H1 H2]|[H1 H2]];
    rewrite H1, H2; split; congruence.
Qed.

Lemma searchForm_validate_limit_Some (v : number) (msg : js_string) :
  searchForm_validate_limit v = Some msg ->
  msg = limit_message /\ js_lt v (of_Z 500) = false.
Proof.
  destruct (searchForm_validate_limit_cases v) as [[H1 H2]|[H1 H2]];
    rewrite H2; intros [= <-]; auto.
Qed.

(** C2, as stated, fails at NaN: the validator rejects it although it is
    not greater than or equal to 500. *)
Lemma limit_NaN_rejected_not_ge_500 : ~ rejects_iff_ge_500 NaN.
Proof.
  unfold rejects_iff_ge_500. intros [H _].
  assert (E : js_ge NaN (of_Z 500) = true) by (apply H; discriminate).
  rewrite of_Z_500 in E. discriminate E.
Qed.

(** C2 (amended).  A submitted search form is rejected exactly when its
    limit is not below 500, that is when the limit is greater than or equal
    to 500 or is NaN; a rejected submission stores the literal message as
    the error of the field and refetches nothing, an accepted one stores
    no error and refetches the results once. *)
Theorem limit_rejected_iff_not_below_500 (st : State) :
  (searchForm_errors (state_after submitSearchForm st) = Some limit_message
   <-> js_ge (SV.limit (searchForm_values st)) (of_Z 500) = true
       \/ is_nan (SV.limit (searchForm_values st)) = true)
  /\ (searchForm_errors (state_after submitSearchForm st) = Some limit_message
      \/ searchForm_errors (state_after submitSearchForm st) = None)
  /\ (searchForm_errors (state_after submitSearchForm st) = Some limit_message
      -> trace submitSearchForm st = [])
  /\ (searchForm_errors (state_after submitSearchForm st) = None
      -> trace submitSearchForm st = [Refetch])
  /\ limit_message =
     js "limit search value allow (<500) in this ui console for performance".
Proof.
  unfold state_after, trace. rewrite submitSearchForm_run.
  pose proof (js_lt_false (SV.limit (searchForm_values st)) (of_Z 500)) as Hlt.
  assert (Hn : is_nan (of_Z 500) = false) by (rewrite of_Z_500; reflexivity).
  rewrite Hn in Hlt.
  destruct (searchForm_validate_limit_cases (SV.limit (searchForm_values st)))
    as [[H1 H2]|[H1 H2]]; rewrite H2; simpl.
  - repeat split; try discriminate; auto.
    intros H. exfalso.
    assert (js_lt (SV.limit (searchForm_values st)) (of_Z 500) = false)
      by (apply Hlt; destruct H as [H|H]; auto).
    congruence.
  - repeat split; try discriminate; auto.
    intros _. apply Hlt in H1. destruct H1 as [H|[H|H]]; auto; discriminate.
Qed.

Lemma limit_rejected_iff_not_below_500_witness :
  searchForm_errors (state_after submitSearchForm (with_limit (of_Z 500)))
    = Some limit_message
  /\ trace submitSearchForm (with_limit (of_Z 500)) = []
  /\ trace submitSearchForm (with_limit (of_Z 499)) = [Refetch].
Proof.
  destruct (limit_rejected_iff_not_below_500 (with_limit (of_Z 500)))
    as (H1 & _ & H3 & _).
  destruct (limit_rejected_iff_not_below_500 (with_limit (of_Z 499)))
    as (G1 & G2 & _ & G4 & _).
  assert (E : searchForm_errors (state_after submitSearchForm (with_limit (of_Z 500)))
              = Some limit_message).
  { apply H1. left. vm_compute. reflexivity. }
  split; [exact E|]. split; [exact (H3 E)|].
  apply G4. destruct G2 as [G2|G2]; [|exact G2].
  apply G1 in G2. vm_compute in G2. destruct G2; discriminate.
Defined.

(** C8.  The limit validator has no lower bound: a submitted search form
    whose limit is below 500 is accepted, whatever the limit; no error is
    stored and the results are refetched. *)
Theorem limit_below_500_accepted (st : State) :
  js_lt (SV.limit (searchForm_values st)) (of_Z 500) = true ->
  submitSearchForm st = (Normal tt, set_searchForm_errors None st, [Refetch]).
Proof.
  intros H. rewrite submitSearchForm_run.
  apply searchForm_validate_limit_None in H. rewrite H. reflexivity.
Qed.

Lemma limit_below_500_accepted_witness :
  submitSearchForm (with_limit (of_Z (-3)))
  = (Normal tt, set_searchForm_errors None (with_limit (of_Z (-3))), [Refetch]).
Proof.
  apply (limit_below_500_accepted (with_limit (of_Z (-3)))).
  vm_compute. reflexivity.
Defined.

(** Zero, every negative number and minus infinity are accepted. *)
Lemma limit_zero_accepted : searchForm_validate_limit (of_Z 0) = None.
Proof. apply searchForm_validate_limit_None. vm_compute. reflexivity. Qed.

Lemma limit_negative_accepted (v : number) :
  js_lt v (of_Z 0) = true -> searchForm_validate_limit v = None.
Proof.
  intros H. apply searchForm_validate_limit_None, js_lt_0_500, H.
Qed.

Lemma limit_neg_Infinity_accepted : searchForm_validate_limit neg_Infinity = None.
Proof. apply limit_negative_accepted. vm_compute. reflexivity. Qed.

(** ** The three mutations *)

Lemma addDocumentsMutation_run (docs : list json) (o : outcome) (st : State) :
  addDocumentsMutation docs o st =
  match o with
  | Fulfilled t =>
      (Normal tt,
       mkState (searchForm_values st) (searchForm_errors st) [] None false
         (isEditDocumentsModalOpen st) (editingDocument st) (confirmModal st),
       [Call_addDocuments docs; ShowTaskSubmitNotification t])
  | Rejected e =>
      (Normal tt, st,
       [Call_addDocuments docs; ConsoleError e; ShowTaskErrorNotification e])
  end.
Proof. destruct o; reflexivity. Qed.

Lemma removeDocumentsMutation_run (docId : list (option json)) (o : outcome)
    (st : State) :
  removeDocumentsMutation docId o st =
  match o with
  | Fulfilled t =>
      (Normal tt, st,
       [Call_deleteDocuments docId; ShowTaskSubmitNotification t; Refetch])
  | Rejected e =>
      (Normal tt, st,
       [Call_deleteDocuments docId; ConsoleError e; ShowTaskErrorNotification e])
  end.
Proof. destruct o; reflexivity. Qed.

Lemma editDocumentMutation_run (docs : list json) (o : outcome) (st : State) :
  editDocumentMutation docs o st =
  match o with
  | Fulfilled t =>
      (Normal tt,
       mkState (searchForm_values st) (searchForm_errors st)
         (addDocumentsForm_documents st) (addDocumentsForm_errors st)
         (isAddDocumentsModalOpen st) false (editingDocument st)
         (confirmModal st),
       [Call_updateDocuments docs; ShowTaskSubmitNotification t; Refetch])
  | Rejected e =>
      (Normal tt, st,
       [Call_updateDocuments docs; ConsoleError e; ShowTaskErrorNotification e])
  end.
Proof. destruct o; reflexivity. Qed.

(** A successful delete and a successful update each refetch the results
    once and show one task-submit notification. *)
Lemma removeDocumentsMutation_success (docId : list (option json)) (t : Task)
    (st : State) :
  count is_refetch (trace (removeDocumentsMutation docId (Fulfilled t)) st) = 1%nat
  /\ count is_success_notification
       (trace (removeDocumentsMutation docId (Fulfilled t)) st) = 1%nat.
Proof. split; reflexivity. Qed.

Lemma editDocumentMutation_success (docs : list json) (t : Task) (st : State) :
  count is_refetch (trace (editDocumentMutation docs (Fulfilled t)) st) = 1%nat
  /\ count is_success_notification
       (trace (editDocumentMutation docs (Fulfilled t)) st) = 1%nat.
Proof. split; reflexivity. Qed.

(** C1.  What the code does at a successful add: [onSuccess] of
    [addDocumentsMutation] shows one task-submit notification, closes the
    modal and resets the form, and refetches nothing, where the handlers of
    the two other mutations call [searchDocumentsQuery.refetch()]. *)
Theorem addDocumentsMutation_success_no_refetch (docs : list json) (t : Task)
    (st : State) :
  trace (addDocumentsMutation docs (Fulfilled t)) st
    = [Call_addDocuments docs; ShowTaskSubmitNotification t]
  /\ count is_refetch (trace (addDocumentsMutation docs (Fulfilled t)) st) = 0%nat
  /\ count is_success_notification
       (trace (addDocumentsMutation docs (Fulfilled t)) st) = 1%nat.
Proof. repeat split; reflexivity. Qed.

(** A failed mutation refetches nothing and shows no success notification. *)
Lemma mutation_failure (e : Error) (st : State) :
  forall tr,
    (exists docs, tr = trace (addDocumentsMutation docs (Rejected e)) st)
    \/ (exists docId, tr = trace (removeDocumentsMutation docId (Rejected e)) st)
    \/ (exists docs, tr = trace (editDocumentMutation docs (Rejected e)) st) ->
    count is_refetch tr = 0%nat /\ count is_success_notification tr = 0%nat
    /\ In (ShowTaskErrorNotification e) tr.
Proof.
  intros tr [[d ->]|[[d ->]|[d ->]]]; repeat split; simpl; auto.
Qed.

(** ** The add-documents form *)

Lemma nonempty_length {A} (l : list A) : nonempty l = true <-> (0 < length l)%nat.
Proof. unfold nonempty. rewrite Z.ltb_lt. lia. Qed.

Lemma nonempty_cons {A} (x : A) (l : list A) : nonempty (x :: l) = true.
Proof. apply nonempty_length. simpl. lia. Qed.

Lemma addDocumentsForm_validate_documents_run (value : list json) (st : State) :
  addDocumentsForm_validate_documents value st =
  match value with
  | [] => (Normal (Some documents_message), st,
           [ShowNotification (js "yellow") documents_message])
  | _ :: _ => (Normal None, st, [])
  end.
Proof. destruct value; reflexivity. Qed.

Lemma submitAddDocumentsForm_run (o : outcome) (st : State) :
  submitAddDocumentsForm o st =
  match addDocumentsForm_documents st with
  | [] => (Normal tt, set_addDocumentsForm [] (Some documents_message) st,
           [ShowNotification (js "yellow") documents_message])
  | d :: ds =>
      addDocumentsMutation (d :: ds) o (set_addDocumentsForm (d :: ds) None st)
  end.
Proof.
  unfold submitAddDocumentsForm, addDocumentsForm_onSubmit, bind, get.
  rewrite addDocumentsForm_validate_documents_run.
  destruct (addDocumentsForm_documents st) as [|d ds]; [reflexivity|].
  unfold modify, onAddDocumentsSubmit.
  destruct (addDocumentsMutation _ _ _) as [[r st2] tr2]. reflexivity.
Qed.

(** C5.  The documents validator accepts an array exactly when its length
    is greater than 0.  A submission with an empty array is rejected: the
    literal message is shown in a yellow (warning) notification and stored
    as the error, and the add-documents endpoint is not called; a
    submission with a non-empty array calls the endpoint with it. *)
Theorem documents_accepted_iff_nonempty (value : list json) (o : outcome)
    (st : State) :
  (result (addDocumentsForm_validate_documents value) st = Normal None
   <-> (0 < length value)%nat)
  /\ (result (addDocumentsForm_validate_documents value) st = Normal None
      \/ result (addDocumentsForm_validate_documents value) st
         = Normal (Some documents_message)
         /\ trace (addDocumentsForm_validate_documents value) st
            = [ShowNotification (js "yellow") documents_message])
  /\ (addDocumentsForm_documents st = [] ->
      submitAddDocumentsForm o st
      = (Normal tt, set_addDocumentsForm [] (Some documents_message) st,
         [ShowNotification (js "yellow") documents_message])
      /\ addDocuments_calls (trace (submitAddDocumentsForm o) st) = [])
  /\ ((0 < length (addDocumentsForm_documents st))%nat ->
      addDocuments_calls (trace (submitAddDocumentsForm o) st)
      = [addDocumentsForm_documents st]
      /\ ~ In (ShowNotification (js "yellow") documents_message)
             (trace (submitAddDocumentsForm o) st))
  /\ documents_message
     = js "Added documents should be JSON Array whose length > 0".
Proof.
  unfold result, trace.
  rewrite addDocumentsForm_validate_documents_run, submitAddDocumentsForm_run.
  split; [|split; [|split; [|split]]].
  - destruct value; simpl; split; intros H; try discriminate; try lia; auto.
  - destruct value; simpl; auto.
  - intros ->. split; reflexivity.
  - destruct (addDocumentsForm_documents st) as [|d ds]; simpl; [lia|].
    intros _. rewrite addDocumentsMutation_run.
    destruct o; (split; [reflexivity|]); simpl; intros H;
      repeat (destruct H as [H|H]; [discriminate H|]); exact H.
  - reflexivity.
Qed.

Lemma documents_accepted_iff_nonempty_witness :
  addDocuments_calls
    (trace (submitAddDocumentsForm (Fulfilled (EnqueuedTask 7))) (with_documents []))
  = []
  /\ addDocuments_calls
       (trace (submitAddDocumentsForm (Fulfilled (EnqueuedTask 7)))
          (with_documents [JObject ∅]))
     = [[JObject ∅]].
Proof.
  split.
  - apply (documents_accepted_iff_nonempty [] (Fulfilled (EnqueuedTask 7))
             (with_documents [])).
    reflexivity.
  - apply (documents_accepted_iff_nonempty [] (Fulfilled (EnqueuedTask 7))
             (with_documents [JObject ∅])).
    simpl. lia.
Defined.

(** ** Editing a document *)

(** C10.  Submitting the edit form with no document under edit does
    nothing: no endpoint is called and the state is unchanged.  With a
    document under edit, the update-documents endpoint is called once, with
    the one-element array of that document. *)
Theorem onSubmitDocumentUpdate_spec (o : outcome) (st : State) :
  (editingDocument st = None ->
   onSubmitDocumentUpdate o st = (Normal tt, st, []))
  /\ (forall doc, editingDocument st = Some doc ->
      updateDocuments_calls (trace (onSubmitDocumentUpdate o) st)
      = [[JObject doc]]
      /\ addDocuments_calls (trace (onSubmitDocumentUpdate o) st) = []
      /\ deleteDocuments_calls (trace (onSubmitDocumentUpdate o) st) = []).
Proof.
  unfold trace, onSubmitDocumentUpdate, bind, get. split.
  - intros ->. reflexivity.
  - intros doc ->. rewrite editDocumentMutation_run.
    destruct o; repeat split; reflexivity.
Qed.

Lemma onSubmitDocumentUpdate_spec_witness :
  onSubmitDocumentUpdate (Fulfilled (EnqueuedTask 3)) (editing None)
  = (Normal tt, editing None, [])
  /\ updateDocuments_calls
       (trace (onSubmitDocumentUpdate (Fulfilled (EnqueuedTask 3)))
          (editing (Some doc_id_1)))
     = [[JObject doc_id_1]].
Proof.
  split.
  - apply (onSubmitDocumentUpdate_spec (Fulfilled (EnqueuedTask 3)) (editing None)).
    reflexivity.
  - apply (onSubmitDocumentUpdate_spec (Fulfilled (EnqueuedTask 3))
             (editing (Some doc_id_1)) ).
    reflexivity.
Defined.

(** ** Deleting a document *)

Lemma onClickDocumentDel_run (env : Env) (doc : Hit) (st : State) :
  onClickDocumentDel env doc st =
  match indexPrimaryKeyQuery_data env with
  | Some (c :: pk) =>
      (Normal tt,
       set_confirmModal (Some (RemoveDocumentsMutate [prop doc (c :: pk)])) st,
       [ConsoleDebug (js "onClickDocumentDel");
        OpenConfirmModal (js "Delete a document")
          (RemoveDocumentsMutate [prop doc (c :: pk)])])
  | _ =>
      (Normal tt, st,
       [ConsoleDebug (js "onClickDocumentDel");
        ShowNotification (js "danger") (danger_message env)])
  end.
Proof.
  unfold onClickDocumentDel.
  destruct (indexPrimaryKeyQuery_data env) as [[|c pk]|]; reflexivity.
Qed.

Lemma answerConfirmModal_run (a : answer) (o : outcome) (st : State) :
  answerConfirmModal a o st =
  match confirmModal st, a with
  | None, _ => (Normal tt, st, [])
  | Some _, Cancel => (Normal tt, set_confirmModal None st, [])
  | Some (RemoveDocumentsMutate docId), Confirm =>
      removeDocumentsMutation docId o (set_confirmModal None st)
  end.
Proof.
  unfold answerConfirmModal, bind, get.
  destruct (confirmModal st) as [[docId]|]; [|reflexivity].
  destruct a; [|reflexivity].
  unfold modify, run_callback.
  destruct (removeDocumentsMutation _ _ _) as [[r st2] tr2]. reflexivity.
Qed.

(** C3.  A click on Delete while the primary-key query has no primary key
    shows a danger notification and nothing else: no modal is opened, the
    state is unchanged and the delete endpoint is not called.  With a
    primary key, the click itself calls nothing and opens the confirm
    modal; cancelling it calls nothing, confirming it calls the delete
    endpoint. *)
Theorem onClickDocumentDel_primaryKey (env : Env) (doc : Hit) (st : State) :
  (indexPrimaryKeyQuery_data env = None ->
   onClickDocumentDel env doc st
   = (Normal tt, st,
      [ConsoleDebug (js "onClickDocumentDel");
       ShowNotification (js "danger") (danger_message env)])
   /\ deleteDocuments_calls (trace (onClickDocumentDel env doc) st) = [])
  /\ (forall pk, indexPrimaryKeyQuery_data env = Some pk -> pk <> [] ->
      deleteDocuments_calls (trace (onClickDocumentDel env doc) st) = []
      /\ count is_notification (trace (onClickDocumentDel env doc) st) = 0%nat
      /\ forall o,
          deleteDocuments_calls
            (trace (answerConfirmModal Cancel o)
               (state_after (onClickDocumentDel env doc) st)) = []
          /\ deleteDocuments_calls
               (trace (answerConfirmModal Confirm o)
                  (state_after (onClickDocumentDel env doc) st))
             = [[prop doc pk]]).
Proof.
  unfold trace, state_after. rewrite onClickDocumentDel_run. split.
  - intros ->. split; reflexivity.
  - intros pk -> Hpk. destruct pk as [|c pk]; [congruence|]. simpl.
    repeat split; rewrite answerConfirmModal_run; simpl; try reflexivity.
    rewrite removeDocumentsMutation_run. destruct o; reflexivity.
Qed.

Lemma onClickDocumentDel_primaryKey_witness :
  deleteDocuments_calls
    (trace (onClickDocumentDel (env_pk None) doc_id_1) initialState) = []
  /\ deleteDocuments_calls
       (trace (answerConfirmModal Confirm (Fulfilled (EnqueuedTask 9)))
          (state_after (onClickDocumentDel (env_pk (Some (js "id"))) doc_id_1)
             initialState))
     = [[Some (JNumber (of_Z 1))]].
Proof.
  split.
  - apply (onClickDocumentDel_primaryKey (env_pk None) doc_id_1 initialState).
    reflexivity.
  - destruct (onClickDocumentDel_primaryKey (env_pk (Some (js "id"))) doc_id_1
                initialState) as [_ H].
    destruct (H (js "id") eq_refl ltac:(discriminate)) as (_ & _ & H').
    destruct (H' (Fulfilled (EnqueuedTask 9))) as [_ H''].
    rewrite H''. vm_compute. reflexivity.
Defined.

(** The guard is [if (pk)]: an empty primary-key string is falsy and is
    handled as no primary key. *)
Lemma onClickDocumentDel_empty_primaryKey (env : Env) (doc : Hit) (st : State) :
  indexPrimaryKeyQuery_data env = Some [] ->
  onClickDocumentDel env doc st
  = (Normal tt, st,
     [ConsoleDebug (js "onClickDocumentDel");
      ShowNotification (js "danger") (danger_message env)]).
Proof. intros H. rewrite onClickDocumentDel_run, H. reflexivity. Qed.

(** ** Sessions *)

Section Sessions.

Variable JSON_parse : js_string -> option json.

(** The add-documents click touches only the add-documents modal and form. *)
Lemma onAddDocumentsClick_frame (clipboard : clipboard_read) (st : State) :
  confirmModal (state_after (onAddDocumentsClick JSON_parse clipboard) st)
    = confirmModal st
  /\ editingDocument (state_after (onAddDocumentsClick JSON_parse clipboard) st)
     = editingDocument st
  /\ Forall (fun e => exists l, e = ConsoleDebug l)
       (trace (onAddDocumentsClick JSON_parse clipboard) st).
Proof.
  unfold state_after, trace, onAddDocumentsClick.
  destruct clipboard as [[|item rest]|]; try (repeat split; constructor).
  destruct (includes _ _); [|repeat split; constructor].
  destruct (getType _ _) as [text|]; [|repeat split; constructor].
  destruct (JSON_parse text) as [v|]; [|repeat split; constructor].
  destruct v as [| | | |[|d ds]|o]; simpl; repeat split; eauto.
Qed.

(** Which delete calls one action makes, and which modal it leaves. *)
Lemma handle_delete_calls (env : Env) (ev : event) (st : State)
    (docId : list (option json)) :
  In docId (deleteDocuments_calls (trace (handle JSON_parse env ev) st)) ->
  confirmModal st = Some (RemoveDocumentsMutate docId)
  /\ exists o, ev = AnswerConfirmModal Confirm o.
Proof.
  unfold trace. destruct ev; simpl.
  - intros [].
  - rewrite submitSearchForm_run.
    destruct (searchForm_validate_limit _); intros [].
  - destruct (onAddDocumentsClick_frame clipboard st) as (_ & _ & H).
    unfold trace in H. intros Hin. exfalso.
    induction H as [|e tr [l ->] _ IH]; simpl in Hin; auto.
  - intros [].
  - rewrite submitAddDocumentsForm_run.
    destruct (addDocumentsForm_documents st); [intros []|].
    rewrite addDocumentsMutation_run. destruct o; intros [].
  - intros [].
  - intros [].
  - intros [].
  - unfold onSubmitDocumentUpdate, bind, get.
    destruct (editingDocument st); [|intros []].
    rewrite editDocumentMutation_run. destruct o; intros [].
  - intros [].
  - rewrite onClickDocumentDel_run.
    destruct (indexPrimaryKeyQuery_data env) as [[|c pk]|]; intros [].
  - rewrite answerConfirmModal_run.
    destruct (confirmModal st) as [[ids]|]; [|intros []].
    destruct a; [|intros []].
    rewrite removeDocumentsMutation_run.
    destruct o; simpl; intros [<-|[]]; eauto.
Qed.

Lemma handle_confirmModal (env : Env) (ev : event) (st : State)
    (docId : list (option json)) :
  confirmModal (state_after (handle JSON_parse env ev) st)
    = Some (RemoveDocumentsMutate docId) ->
  confirmModal st = Some (RemoveDocumentsMutate docId)
  \/ exists doc pk, ev = ClickDocumentDel doc
       /\ indexPrimaryKeyQuery_data env = Some pk /\ pk <> []
       /\ docId = [prop doc pk].
Proof.
  unfold state_after. destruct ev; simpl; auto.
  - rewrite submitSearchForm_run.
    destruct (searchForm_validate_limit _); simpl; auto.
  - destruct (onAddDocumentsClick_frame clipboard st) as (H & _).
    unfold state_after in H. rewrite H. auto.
  - rewrite submitAddDocumentsForm_run.
    destruct (addDocumentsForm_documents st); simpl; auto.
    rewrite addDocumentsMutation_run. destruct o; simpl; auto.
  - unfold onSubmitDocumentUpdate, bind, get.
    destruct (editingDocument st); simpl; auto.
    rewrite editDocumentMutation_run. destruct o; simpl; auto.
  - rewrite onClickDocumentDel_run.
    destruct (indexPrimaryKeyQuery_data env) as [[|c pk]|] eqn:E; simpl; auto.
    intros [= <-]. right. exists doc, (c :: pk). repeat split; auto.
  - rewrite answerConfirmModal_run.
    destruct (confirmModal st) as [[ids]|] eqn:E; simpl; rewrite ?E; auto.
    destruct a; simpl; [|discriminate].
    rewrite removeDocumentsMutation_run. destruct o; simpl; discriminate.
Qed.

(** The invariant of a session: whatever holds of the identifier list in
    the modal on screen and of the list of every later click on Delete
    holds of every list sent to the delete endpoint. *)
Lemma run_delete_calls (P : list (option json) -> Prop)
    (evs : list (Env * event)) :
  forall st,
    (forall docId, confirmModal st = Some (RemoveDocumentsMutate docId) -> P docId) ->
    (forall env doc pk, In (env, ClickDocumentDel doc) evs ->
       indexPrimaryKeyQuery_data env = Some pk -> pk <> [] -> P [prop doc pk]) ->
    forall docId, In docId (deleteDocuments_calls (snd (run JSON_parse evs st))) -> P docId.
Proof.
  induction evs as [|[env ev] evs IH]; intros st Hst Hevs docId; simpl.
  - intros [].
  - unfold deleteDocuments_calls. rewrite omap_app, in_app_iff.
    intros [Hin|Hin].
    + apply handle_delete_calls in Hin as [Hm _]. auto.
    + apply (IH (state_after (handle JSON_parse env ev) st)); auto.
      * intros ids Hids. apply handle_confirmModal in Hids
          as [Hids|(doc & pk & -> & Hpk & Hne & ->)]; auto.
        apply (Hevs env doc pk); simpl; auto.
      * intros env' doc pk Hin'. apply Hevs. simpl. auto.
Qed.

End Sessions.

(** C9.  A click on Delete followed by the confirmation calls the delete
    endpoint once, with the one-element list of the clicked document's
    value at the configured primary key; and in every session of the page
    each list sent to the delete endpoint is such a list, for a document
    the user clicked. *)
Theorem deleteDocuments_called_with_clicked_primaryKey
    (JSON_parse : js_string -> option json) :
  (forall env env' doc pk o st,
      indexPrimaryKeyQuery_data env = Some pk -> pk <> [] ->
      deleteDocuments_calls
        (snd (run JSON_parse
                [(env, ClickDocumentDel doc); (env', AnswerConfirmModal Confirm o)]
                st))
      = [[prop doc pk]])
  /\ (forall evs docId,
        In docId (deleteDocuments_calls (snd (run JSON_parse evs initialState))) ->
        exists env doc pk,
          In (env, ClickDocumentDel doc) evs
          /\ indexPrimaryKeyQuery_data env = Some pk /\ pk <> []
          /\ docId = [prop doc pk]).
Proof.
  split.
  - intros env env' doc pk o st Hpk Hne. simpl.
    unfold trace, state_after. rewrite onClickDocumentDel_run, Hpk.
    destruct pk as [|c pk]; [congruence|]. simpl.
    rewrite answerConfirmModal_run. simpl.
    rewrite removeDocumentsMutation_run. destruct o; reflexivity.
  - intros evs docId.
    apply (run_delete_calls JSON_parse
             (fun docId => exists env doc pk,
                  In (env, ClickDocumentDel doc) evs
                  /\ indexPrimaryKeyQuery_data env = Some pk /\ pk <> []
                  /\ docId = [prop doc pk])).
    + simpl. discriminate.
    + intros env doc pk Hin Hpk Hne. exists env, doc, pk. auto.
Qed.

Lemma deleteDocuments_called_with_clicked_primaryKey_witness :
  deleteDocuments_calls (snd (run (fun _ => None) delete_session initialState))
  = [[prop doc_id_1 (js "id")]]
  /\ exists env doc pk,
      In (env, ClickDocumentDel doc) delete_session
      /\ indexPrimaryKeyQuery_data env = Some pk /\ pk <> []
      /\ [Some (JNumber (of_Z 1))] = [prop doc pk].
Proof.
  destruct (deleteDocuments_called_with_clicked_primaryKey (fun _ => None))
    as [H1 H2].
  split.
  - apply (H1 (env_pk (Some (js "id")))); [reflexivity | discriminate].
  - apply (H2 delete_session). vm_compute. left. reflexivity.
Defined.

(** With no primary key in any render of a session, nothing is ever sent
    to the delete endpoint. *)
Lemma no_primaryKey_no_deleteDocuments (JSON_parse : js_string -> option json)
    (evs : list (Env * event)) :
  (forall env ev, In (env, ev) evs -> truthy (indexPrimaryKeyQuery_data env) = false) ->
  deleteDocuments_calls (snd (run JSON_parse evs initialState)) = [].
Proof.
  intros H.
  destruct (deleteDocuments_calls (snd (run JSON_parse evs initialState)))
    as [|docId l] eqn:E; [reflexivity|].
  exfalso. apply (run_delete_calls JSON_parse (fun _ => False) evs initialState)
    with (docId := docId).
  - simpl. discriminate.
  - intros env doc pk Hin Hpk Hne. apply H in Hin. rewrite Hpk in Hin.
    destruct pk; [congruence | discriminate].
  - rewrite E. left. reflexivity.
Qed.

(** ** The clipboard *)

(** An item that lists a type has a blob of that type. *)
Lemma getType_includes (item : ClipboardItem) (t : js_string) :
  includes t (types item) = true -> exists text, getType item t = Some text.
Proof.
  unfold includes, types. induction item as [|[t' text] item IH]; simpl.
  - discriminate.
  - destruct (bool_decide (t' = t)); simpl; eauto.
Qed.

Lemma onAddDocumentsClick_run (JSON_parse : js_string -> option json)
    (clipboard : clipboard_read) (st : State) :
  state_after (onAddDocumentsClick JSON_parse clipboard) st
  = match default_batch (clipboard_text clipboard ≫= JSON_parse) with
    | Some arr => set_addDocumentsForm arr None (opened st)
    | None => opened st
    end
  /\ Forall (fun e => exists l, e = ConsoleDebug l)
       (trace (onAddDocumentsClick JSON_parse clipboard) st).
Proof.
  unfold state_after, trace, onAddDocumentsClick, clipboard_text.
  destruct clipboard as [[|item rest]|]; try (split; [reflexivity|constructor]).
  destruct (includes _ _); [|split; [reflexivity|constructor]].
  destruct (getType _ _) as [text|]; [|split; [reflexivity|constructor]]. simpl.
  destruct (JSON_parse text) as [v|]; [|split; [reflexivity|constructor]].
  destruct v as [| | | |[|d ds]|o]; (split; [reflexivity|]); simpl; eauto.
Qed.




Lemma onAddDocumentsClick_array (JSON_parse : js_string -> option json)
    (clipboard : clipboard_read) (text : js_string) (d : json) (ds : list json)
    (st : State) :
  clipboard_text clipboard = Some text ->
  JSON_parse text = Some (JArray (d :: ds)) ->
  addDocumentsForm_documents
    (state_after (onAddDocumentsClick JSON_parse clipboard) st) = d :: ds.
Proof.
  intros Ht Hp.
  destruct (onAddDocumentsClick_run JSON_parse clipboard st) as [-> _].
  rewrite Ht. simpl. rewrite Hp. reflexivity.
Qed.

Lemma onAddDocumentsClick_object (JSON_parse : js_string -> option json)
    (clipboard : clipboard_read) (text : js_string) (o : gmap js_string json)
    (st : State) :
  clipboard_text clipboard = Some text ->
  JSON_parse text = Some (JObject o) ->
  addDocumentsForm_documents
    (state_after (onAddDocumentsClick JSON_parse clipboard) st) = [JObject o].
Proof.
  intros Ht Hp.
  destruct (onAddDocumentsClick_run JSON_parse clipboard st) as [-> _].
  rewrite Ht. simpl. rewrite Hp. reflexivity.
Qed.

Lemma onAddDocumentsClick_no_batch (JSON_parse : js_string -> option json)
    (clipboard : clipboard_read) (st : State) :
  clipboard_text clipboard = None
  \/ (exists text, clipboard_text clipboard = Some text
        /\ (JSON_parse text = None
            \/ JSON_parse text = Some (JArray [])
            \/ exists v, JSON_parse text = Some v
                 /\ isArray v = false /\ isObject v = false)) ->
  addDocumentsForm_documents
    (state_after (onAddDocumentsClick JSON_parse clipboard) st)
    = addDocumentsForm_documents st
  /\ addDocumentsForm_errors
       (state_after (onAddDocumentsClick JSON_parse clipboard) st)
     = addDocumentsForm_errors st.
Proof.
  intros H.
  destruct (onAddDocumentsClick_run JSON_parse clipboard st) as [-> _].
  destruct H as [->|(text & -> & [H|[H|(v & H & Ha & Ho)]])]; simpl;
    rewrite ?H; try (split; reflexivity).
  destruct v; try discriminate; split; reflexivity.
Qed.

(** A thrown [SyntaxError] ends the handler after the modal was opened. *)
Lemma onAddDocumentsClick_parse_failure (JSON_parse : js_string -> option json)
    (clipboard : clipboard_read) (text : js_string) (st : State) :
  clipboard_text clipboard = Some text ->
  JSON_parse text = None ->
  onAddDocumentsClick JSON_parse clipboard st = (Throw SyntaxError, opened st, []).
Proof.
  unfold clipboard_text, onAddDocumentsClick.
  destruct clipboard as [[|item rest]|]; try discriminate.
  destruct (includes _ _); [|discriminate].
  intros -> H. simpl. rewrite H. reflexivity.
Qed.

(** ** Trimming and splitting *)

Example trim_example : trim (js "  a:asc ") = js "a:asc".
Proof. reflexivity. Qed.

Example trim_inner_space : trim (js " a b ") = js "a b".
Proof. reflexivity. Qed.

Example trim_no_break_space : trim [0xA0; 0x61; 0x3000; 0xFEFF; 0x2029]%N = [0x61]%N.
Proof. reflexivity. Qed.

Example split_example :
  split comma (js ",a,,b ") = [[]; js "a"; []; js "b "].
Proof. reflexivity. Qed.

Example split_empty : split comma [] = [[]].
Proof. reflexivity. Qed.

Example sort_option_empty : sort_option [] = [].
Proof. reflexivity. Qed.

Example sort_option_blank_segments :
  sort_option (js " , a:asc ,, b:desc,") = [js "a:asc"; js "b:desc"].
Proof. reflexivity. Qed.

Lemma trimStart_nil (s : js_string) :
  trimStart s = [] <-> forallb is_white_space s = true.
Proof.
  induction s as [|c s IH]; simpl; [tauto|].
  destruct (is_white_space c); simpl; [exact IH|].
  split; discriminate.
Qed.

(** What [trimStart] returns is empty or starts with a code unit that is
    not white space. *)
Lemma trimStart_head (s : js_string) :
  match trimStart s with
  | [] => True
  | c :: _ => is_white_space c = false
  end.
Proof.
  induction s as [|c s IH]; simpl; [exact I|].
  destruct (is_white_space c) eqn:E; [exact IH | exact E].
Qed.

(** [trimStart] removes a prefix of white space. *)
Lemma trimStart_prefix (s : js_string) :
  exists l, s = l ++ trimStart s /\ forallb is_white_space l = true.
Proof.
  induction s as [|c s [l [IH1 IH2]]]; simpl.
  - exists []. auto.
  - destruct (is_white_space c) eqn:E.
    + exists (c :: l). simpl. rewrite E, IH2. split; [congruence | reflexivity].
    + exists []. auto.
Qed.

Lemma forallb_rev {A} (p : A -> bool) (l : list A) :
  forallb p (rev l) = forallb p l.
Proof.
  induction l as [|x l IH]; simpl; [reflexivity|].
  rewrite forallb_app, IH. simpl. rewrite andb_true_r. apply andb_comm.
Qed.

Lemma trimEnd_nil (s : js_string) :
  trimEnd s = [] <-> forallb is_white_space s = true.
Proof.
  unfold trimEnd. rewrite <- (forallb_rev is_white_space s), <- trimStart_nil.
  split; intros H.
  - apply (f_equal (@rev code_unit)) in H. rewrite rev_involutive in H. exact H.
  - rewrite H. reflexivity.
Qed.

(** [trim] gives the empty string exactly on the strings that are empty or
    made of white space only. *)
Lemma trim_nil (s : js_string) :
  trim s = [] <-> forallb is_white_space s = true.
Proof.
  unfold trim. rewrite trimEnd_nil. split; intros H.
  - apply trimStart_nil. pose proof (trimStart_head s) as Hh.
    destruct (trimStart s) as [|c t]; [reflexivity|].
    simpl in H. rewrite Hh in H. discriminate.
  - apply trimStart_nil in H. rewrite H. reflexivity.
Qed.

(** [trim] removes white space at both ends and nothing else. *)
Lemma trim_decompose (s : js_string) :
  exists l r, s = l ++ trim s ++ r
    /\ forallb is_white_space l = true /\ forallb is_white_space r = true.
Proof.
  destruct (trimStart_prefix s) as (l & Hl & Hwl).
  destruct (trimStart_prefix (rev (trimStart s))) as (r & Hr & Hwr).
  exists l, (rev r). repeat split; auto.
  - unfold trim, trimEnd. rewrite <- rev_app_distr, <- Hr, rev_involutive.
    exact Hl.
  - rewrite forallb_rev. exact Hwr.
Qed.

Lemma trim_ends (s : js_string) :
  match trim s with
  | [] => True
  | c :: _ => is_white_space c = false
  end
  /\ match rev (trim s) with
     | [] => True
     | c :: _ => is_white_space c = false
     end.
Proof.
  split.
  - pose proof (trimStart_head s) as Hh.
    destruct (trimStart_prefix (rev (trimStart s))) as (r & Hr & Hwr).
    unfold trim, trimEnd.
    apply (f_equal (@rev code_unit)) in Hr.
    rewrite rev_involutive, rev_app_distr in Hr. rewrite Hr in Hh.
    destruct (rev (trimStart (rev (trimStart s)))) as [|c t] eqn:E.
    + exact I.
    + simpl in Hh. exact Hh.
  - unfold trim, trimEnd. rewrite rev_involutive. apply trimStart_head.
Qed.

Lemma nonempty_trim (v : js_string) :
  nonempty (trim v) = negb (forallb is_white_space v).
Proof.
  destruct (forallb is_white_space v) eqn:E.
  - apply trim_nil in E. rewrite E. reflexivity.
  - destruct (trim v) eqn:T.
    + apply trim_nil in T. congruence.
    + apply nonempty_cons.
Qed.

(** [split] cuts at the separators and only there: joining the segments
    with the separator gives the string back, no segment contains the
    separator, and there is always at least one segment. *)
Lemma split_not_nil (sep : code_unit) (s : js_string) : split sep s <> [].
Proof.
  destruct s as [|c s]; simpl; [discriminate|].
  destruct (c =? sep)%N; [discriminate|].
  destruct (split sep s); discriminate.
Qed.

Lemma join_split (sep : code_unit) (s : js_string) : join sep (split sep s) = s.
Proof.
  induction s as [|c s IH]; [reflexivity|].
  simpl. destruct (c =? sep)%N eqn:E.
  - apply N.eqb_eq in E. subst c.
    pose proof (split_not_nil sep s) as Hn.
    change (join sep ([] :: split sep s)) with
      (match split sep s with [] => [] | _ :: _ => [] ++ sep :: join sep (split sep s) end).
    destruct (split sep s) as [|seg segs]; [congruence|].
    simpl. f_equal. exact IH.
  - pose proof (split_not_nil sep s) as Hn.
    destruct (split sep s) as [|seg segs]; [congruence|].
    destruct segs as [|seg' segs]; simpl in *; congruence.
Qed.

Lemma split_no_separator (sep : code_unit) (s : js_string) :
  Forall (fun seg => ~ In sep seg) (split sep s).
Proof.
  induction s as [|c s IH]; simpl.
  - constructor; [intros []|constructor].
  - destruct (c =? sep)%N eqn:E.
    + constructor; [intros []|exact IH].
    + apply N.eqb_neq in E.
      destruct (split sep s) as [|seg segs]; [repeat constructor|].
      * intros [H|[]]. congruence.
      * inversion IH as [|? ? Hseg Hsegs]; subst. constructor; [|exact Hsegs].
        intros [H|H]; [congruence | exact (Hseg H)].
Qed.

(** ** The search call *)

Lemma sort_option_forwarded_sort (sort : js_string) :
  sort_option sort = forwarded_sort sort.
Proof.
  unfold sort_option, forwarded_sort. f_equal.
  apply List.filter_ext. intros seg. rewrite nonempty_trim.
  unfold whitespace_only. destruct seg; reflexivity.
Qed.

(** Every forwarded sort expression is non-empty and has no white space at
    either end. *)
Lemma sort_option_trimmed (sort seg : js_string) :
  In seg (sort_option sort) ->
  seg <> []
  /\ (forall c t, seg = c :: t -> is_white_space c = false)
  /\ (forall c t, seg = t ++ [c] -> is_white_space c = false).
Proof.
  unfold sort_option. rewrite in_map_iff. intros (v & <- & Hv).
  apply List.filter_In in Hv as [_ Hv].
  destruct (trim_ends v) as [H1 H2]. repeat split.
  - intros E. rewrite E in Hv. discriminate.
  - intros c t E. rewrite E in H1. exact H1.
  - intros c t E. rewrite E, rev_app_distr in H2. exact H2.
Qed.

(** C4.  The search call receives the query text, the limit, the offset
    and the filter string of the form values unchanged, and as sort list
    the sort expression split on commas, without its empty and
    white-space-only segments, each remaining segment trimmed; the
    expression "a:asc, b:desc" is forwarded as ["a:asc", "b:desc"]. *)
Theorem search_call_forwarding (values queryKey3 : SV.t) :
  searchDocumentsQuery_fn values queryKey3
  = (SV.q queryKey3,
     SearchParams.mk (SV.limit queryKey3) (SV.offset queryKey3)
       (SV.filter queryKey3) (forwarded_sort (SV.sort queryKey3)))
  /\ searchDocumentsQuery_fn values values
     = (SV.q values,
        SearchParams.mk (SV.limit values) (SV.offset values)
          (SV.filter values) (forwarded_sort (SV.sort values)))
  /\ sort_option (js "a:asc, b:desc") = [js "a:asc"; js "b:desc"].
Proof.
  unfold searchDocumentsQuery_fn, spread; simpl.
  rewrite !sort_option_forwarded_sort. split; [|split]; reflexivity.
Qed.

(** ** Selecting an index *)

(** No index is selected when the URL has no [index] parameter or one that
    is empty or white space only. *)
Lemma index_selected_false (env : Env) :
  index_selected env = false <->
  index_param env = None
  \/ exists s, index_param env = Some s /\ forallb is_white_space s = true.
Proof.
  unfold index_selected, currentIndex. destruct (index_param env) as [s|]; simpl.
  - split.
    + intros H. right. exists s. split; [reflexivity|]. apply trim_nil.
      destruct (trim s); [reflexivity | discriminate].
    + intros [H|(s' & [= <-] & H)]; [discriminate|].
      apply trim_nil in H. rewrite H. reflexivity.
  - split; auto.
Qed.

(** ** More on the sort expression *)

Lemma trimStart_fixed (s : js_string) :
  match s with
  | [] => True
  | c :: _ => is_white_space c = false
  end ->
  trimStart s = s.
Proof. destruct s as [|c s]; simpl; [reflexivity|]. intros ->. reflexivity. Qed.

Lemma trim_fixed (s : js_string) :
  match s with [] => True | c :: _ => is_white_space c = false end ->
  match rev s with [] => True | c :: _ => is_white_space c = false end ->
  trim s = s.
Proof.
  intros H1 H2. unfold trim, trimEnd.
  rewrite (trimStart_fixed s H1), (trimStart_fixed (rev s) H2).
  apply rev_involutive.
Qed.

Lemma trim_idempotent (s : js_string) : trim (trim s) = trim s.
Proof. destruct (trim_ends s) as [H1 H2]. apply trim_fixed; assumption. Qed.

Lemma trim_no_separator (sep : code_unit) (v : js_string) :
  ~ In sep v -> ~ In sep (trim v).
Proof.
  intros H Hin. destruct (trim_decompose v) as (l & r & E & _).
  apply H. rewrite E. rewrite !in_app_iff. auto.
Qed.

Lemma split_without_separator (sep : code_unit) (s : js_string) :
  ~ In sep s -> split sep s = [s].
Proof.
  induction s as [|c s IH]; simpl; [reflexivity|]. intros H.
  destruct (c =? sep)%N eqn:E.
  - apply N.eqb_eq in E. exfalso. apply H. auto.
  - rewrite IH; [reflexivity|]. intros Hin. apply H. auto.
Qed.

Lemma split_app_separator (sep : code_unit) (seg t : js_string) :
  ~ In sep seg -> split sep (seg ++ sep :: t) = seg :: split sep t.
Proof.
  induction seg as [|c seg IH]; simpl; intros H.
  - rewrite N.eqb_refl. reflexivity.
  - destruct (c =? sep)%N eqn:E.
    + apply N.eqb_eq in E. exfalso. apply H. auto.
    + rewrite IH; [reflexivity|]. intros Hin. apply H. auto.
Qed.

(** Splitting what [join] built from separator-free segments gives the
    segments back. *)
Lemma split_join (sep : code_unit) (segs : list js_string) :
  segs <> [] -> Forall (fun seg => ~ In sep seg) segs ->
  split sep (join sep segs) = segs.
Proof.
  induction segs as [|seg segs IH]; [congruence|]. intros _ H.
  inversion H as [|? ? Hseg Hsegs]; subst.
  destruct segs as [|seg' segs].
  - simpl. apply split_without_separator, Hseg.
  - change (join sep (seg :: seg' :: segs))
      with (seg ++ sep :: join sep (seg' :: segs)).
    rewrite split_app_separator by exact Hseg.
    rewrite IH; [reflexivity | discriminate | exact Hsegs].
Qed.

(** What every forwarded sort expression is: trimmed, not empty, without a
    comma. *)
Lemma sort_option_Forall (sort : js_string) :
  Forall (fun seg => trim seg = seg /\ seg <> [] /\ ~ In comma seg)
    (sort_option sort).
Proof.
  unfold sort_option. apply List.Forall_forall. intros seg Hin.
  apply in_map_iff in Hin as (v & <- & Hv).
  apply List.filter_In in Hv as [Hv Hne].
  split; [apply trim_idempotent|]. split.
  - intros E. rewrite E in Hne. discriminate.
  - apply trim_no_separator.
    pose proof (split_no_separator comma sort) as Hs.
    rewrite List.Forall_forall in Hs. apply Hs, Hv.
Qed.

Lemma sort_option_of_trimmed (segs : list js_string) :
  Forall (fun seg => trim seg = seg /\ seg <> [] /\ ~ In comma seg) segs ->
  List.map (fun v => trim v)
    (List.filter (fun v => nonempty (trim v)) segs) = segs.
Proof.
  induction 1 as [|seg segs (Ht & Hne & _) _ IH]; simpl; [reflexivity|].
  rewrite Ht. destruct seg as [|c seg]; [congruence|].
  rewrite nonempty_cons. simpl. rewrite Ht, IH. reflexivity.
Qed.

(** X1.  The sort list the search call receives is normalised: writing
    the forwarded expressions back as one comma-separated expression and
    forwarding that again gives the same list. *)
Theorem sort_option_join_idempotent (sort : js_string) :
  sort_option (join comma (sort_option sort)) = sort_option sort.
Proof.
  pose proof (sort_option_Forall sort) as H.
  destruct (sort_option sort) as [|seg segs] eqn:E; [reflexivity|].
  unfold sort_option at 1. rewrite split_join.
  - apply sort_option_of_trimmed, H.
  - discriminate.
  - eapply List.Forall_impl; [|exact H]. simpl. intros a (_ & _ & Ha). exact Ha.
Qed.

(** X2.  Every expression of the forwarded sort list is non-empty,
    contains no comma, and neither starts nor ends with white space. *)
Theorem sort_option_expressions (sort seg : js_string) :
  In seg (sort_option sort) ->
  seg <> [] /\ ~ In comma seg
  /\ (forall c t, seg = c :: t -> is_white_space c = false)
  /\ (forall c t, seg = t ++ [c] -> is_white_space c = false).
Proof.
  intros Hin. pose proof (sort_option_Forall sort) as H.
  rewrite List.Forall_forall in H. destruct (H seg Hin) as (Ht & Hne & Hc).
  destruct (trim_ends seg) as [H1 H2]. rewrite Ht in H1, H2.
  repeat split; auto.
  - intros c t E. rewrite E in H1. exact H1.
  - intros c t E. rewrite E, rev_app_distr in H2. exact H2.
Qed.

Lemma sort_option_expressions_witness :
  js "b:desc" <> [] /\ ~ In comma (js "b:desc")
  /\ (forall c t, js "b:desc" = c :: t -> is_white_space c = false)
  /\ (forall c t, js "b:desc" = t ++ [c] -> is_white_space c = false).
Proof.
  apply (sort_option_expressions (js "a:asc, b:desc ,")).
  vm_compute. right. left. reflexivity.
Defined.

Lemma filter_nil_iff {A} (p : A -> bool) (l : list A) :
  List.filter p l = [] <-> Forall (fun x => p x = false) l.
Proof.
  induction l as [|x l IH]; simpl.
  - split; auto.
  - destruct (p x) eqn:E.
    + split; [discriminate|]. intros H. inversion H; congruence.
    + rewrite IH. split; intros H; [constructor; auto | inversion H; auto].
Qed.

Lemma split_all_blank (s : js_string) :
  Forall (fun seg => forallb is_white_space seg = true) (split comma s)
  <-> forallb is_blank s = true.
Proof.
  induction s as [|c s IH]; simpl.
  - split; auto.
  - unfold is_blank at 1. destruct (c =? comma)%N eqn:E.
    + rewrite orb_true_r. simpl. rewrite <- IH.
      split; intros H; [inversion H; auto | constructor; auto].
    + rewrite orb_false_r. pose proof (split_not_nil comma s) as Hn.
      destruct (split comma s) as [|seg segs]; [congruence|].
      rewrite andb_true_iff, <- IH. split.
      * intros H. inversion H as [|? ? Hh Ht]; subst. simpl in Hh.
        apply andb_true_iff in Hh as [Hc Hseg]. split; [exact Hc|].
        constructor; assumption.
      * intros [Hc H]. inversion H as [|? ? Hseg Ht]; subst.
        constructor; [|exact Ht]. simpl. rewrite Hc, Hseg. reflexivity.
Qed.

(** X3.  The search call receives an empty sort list exactly when the
    sort expression consists of commas and white space only (the empty
    expression included). *)
Theorem sort_option_nil_iff (sort : js_string) :
  sort_option sort = [] <-> forallb is_blank sort = true.
Proof.
  rewrite <- split_all_blank. unfold sort_option. split.
  - intros H. apply map_eq_nil in H. apply filter_nil_iff in H.
    eapply List.Forall_impl; [|exact H]. simpl. intros seg Hs.
    rewrite nonempty_trim in Hs. destruct (forallb is_white_space seg); [reflexivity|discriminate].
  - intros H. replace (List.filter _ _) with (@nil js_string); [reflexivity|].
    symmetry. apply filter_nil_iff.
    eapply List.Forall_impl; [|exact H]. simpl. intros seg Hs.
    rewrite nonempty_trim, Hs. reflexivity.
Qed.

(** ** The selected index *)

(** X4.  The index client exists exactly when the [index] parameter of the
    URL has a character that is not white space; the index it addresses
    is then the trimmed parameter, which is not empty and has no white
    space at either end, and both queries are enabled. *)
Theorem indexClient_uid_trimmed (env : Env) :
  (indexClient_uid env = None <->
   index_param env = None
   \/ exists s, index_param env = Some s /\ forallb is_white_space s = true)
  /\ (forall u, indexClient_uid env = Some u ->
      (exists s, index_param env = Some s /\ u = trim s)
      /\ u <> [] /\ trim u = u
      /\ enabled (indexPrimaryKeyQuery_options env) = true
      /\ enabled (searchDocumentsQuery_options env) = true).
Proof.
  unfold indexClient_uid, indexPrimaryKeyQuery_options,
    searchDocumentsQuery_options, currentIndex; simpl.
  destruct (index_param env) as [s|]; simpl.
  - destruct (trim s) as [|c t] eqn:E; simpl.
    + split.
      * split; auto. intros _. right. exists s. split; [reflexivity|].
        apply trim_nil, E.
      * discriminate.
    + split.
      * split; [discriminate|]. intros [H|(s' & [= <-] & H)]; [discriminate|].
        apply trim_nil in H. congruence.
      * intros u [= <-]. split; [eauto|]. split; [discriminate|].
        split; [|split; reflexivity].
        rewrite <- E. apply trim_idempotent.
  - split; [split; auto | discriminate].
Qed.

Lemma indexClient_uid_trimmed_witness :
  (exists s, index_param (mkEnv (Some (js " movies ")) None) = Some s
             /\ js "movies" = trim s)
  /\ js "movies" <> [] /\ trim (js "movies") = js "movies"
  /\ enabled (indexPrimaryKeyQuery_options (mkEnv (Some (js " movies ")) None)) = true
  /\ enabled (searchDocumentsQuery_options (mkEnv (Some (js " movies ")) None)) = true.
Proof.
  apply (indexClient_uid_trimmed (mkEnv (Some (js " movies ")) None)).
  reflexivity.
Defined.

(** ** Requests that fail *)

(** X5.  A rejected request is logged and reported by one error
    notification, with no success notification and no refetch, and it
    leaves the user's work in place: after a failed add the batch is still
    in the form and the modal still open, after a failed update the
    document is still under edit and the modal still open. *)
Theorem rejected_request_keeps_work (e : Error) (st : State) :
  (forall d ds, addDocumentsForm_documents st = d :: ds ->
     trace (submitAddDocumentsForm (Rejected e)) st
     = [Call_addDocuments (d :: ds); ConsoleError e; ShowTaskErrorNotification e]
     /\ addDocumentsForm_documents
          (state_after (submitAddDocumentsForm (Rejected e)) st) = d :: ds
     /\ isAddDocumentsModalOpen
          (state_after (submitAddDocumentsForm (Rejected e)) st)
        = isAddDocumentsModalOpen st)
  /\ (forall doc, editingDocument st = Some doc ->
      onSubmitDocumentUpdate (Rejected e) st
      = (Normal tt, st,
         [Call_updateDocuments [JObject doc]; ConsoleError e;
          ShowTaskErrorNotification e]))
  /\ (forall docId, confirmModal st = Some (RemoveDocumentsMutate docId) ->
      answerConfirmModal Confirm (Rejected e) st
      = (Normal tt, set_confirmModal None st,
         [Call_deleteDocuments docId; ConsoleError e;
          ShowTaskErrorNotification e])).
Proof.
  split; [|split].
  - intros d ds H. unfold trace, state_after.
    rewrite submitAddDocumentsForm_run, H, addDocumentsMutation_run.
    repeat split.
  - intros doc H. unfold onSubmitDocumentUpdate, bind, get. rewrite H.
    rewrite editDocumentMutation_run. reflexivity.
  - intros docId H. rewrite answerConfirmModal_run, H.
    rewrite removeDocumentsMutation_run. reflexivity.
Qed.

Lemma rejected_request_keeps_work_witness :
  onSubmitDocumentUpdate (Rejected (ApiError (js "index_not_found")))
    (editing (Some doc_id_1))
  = (Normal tt, editing (Some doc_id_1),
     [Call_updateDocuments [JObject doc_id_1];
      ConsoleError (ApiError (js "index_not_found"));
      ShowTaskErrorNotification (ApiError (js "index_not_found"))])
  /\ addDocumentsForm_documents
       (state_after (submitAddDocumentsForm (Rejected (ApiError (js "index_not_found"))))
          (with_documents [JObject doc_id_1]))
     = [JObject doc_id_1].
Proof.
  destruct (rejected_request_keeps_work (ApiError (js "index_not_found"))
              (editing (Some doc_id_1))) as (_ & H & _).
  destruct (rejected_request_keeps_work (ApiError (js "index_not_found"))
              (with_documents [JObject doc_id_1])) as (G & _).
  split; [apply H; reflexivity|].
  apply (G (JObject doc_id_1) []). reflexivity.
Defined.

(** ** How the handlers compose *)

Section Composition.

Variable JSON_parse : js_string -> option json.

(** X7.  A submit that the validator rejected can be repaired in the JSON
    editor: after an edit that leaves a non-empty batch, the next submit
    calls the add-documents endpoint once, with the edited batch. *)
Theorem add_rejected_then_edited (env1 env2 env3 : Env) (d : json)
    (ds : list json) (o1 o2 : outcome) (st : State) :
  addDocumentsForm_documents st = [] ->
  addDocuments_calls
    (snd (run JSON_parse
            [(env1, AddDocumentsSubmit o1);
             (env2, AddDocumentsJsonEditorUpdate (d :: ds));
             (env3, AddDocumentsSubmit o2)] st))
  = [d :: ds]
  /\ count is_notification
       (trace (handle JSON_parse env1 (AddDocumentsSubmit o1)) st) = 1%nat.
Proof.
  intros H. cbn [run handle fst snd]. unfold trace, state_after.
  rewrite (submitAddDocumentsForm_run o1 st), H. cbn [fst snd].
  unfold onAddDocumentsJsonEditorUpdate, addDocumentsForm_setFieldValue_documents,
    modify. cbn [fst snd].
  rewrite submitAddDocumentsForm_run. cbn [addDocumentsForm_documents set_addDocumentsForm].
  rewrite addDocumentsMutation_run. destruct o2; split; reflexivity.
Qed.

(** X8.  Closing the add-documents modal throws the batch away, whatever
    the clipboard or the editor had put in the form: the form is back to
    its initial values, and a submit after it calls nothing. *)
Theorem close_add_modal_discards_batch (env env' : Env) (o : outcome)
    (st : State) :
  addDocumentsForm_documents (state_after onCloseAddDocumentsModal st) = []
  /\ addDocumentsForm_errors (state_after onCloseAddDocumentsModal st) = None
  /\ isAddDocumentsModalOpen (state_after onCloseAddDocumentsModal st) = false
  /\ addDocuments_calls
       (snd (run JSON_parse
               [(env, CloseAddDocumentsModal); (env', AddDocumentsSubmit o)] st))
     = [].
Proof.
  cbn [run handle fst snd]. unfold trace, state_after.
  rewrite submitAddDocumentsForm_run. repeat split.
Qed.

Lemma last_cons_default {A} (l : list A) :
  forall x d, List.last (x :: l) d = List.last l x.
Proof.
  induction l as [|y l IH]; intros x d; [reflexivity|].
  change (List.last (x :: y :: l) d) with (List.last (y :: l) d).
  rewrite !IH. reflexivity.
Qed.

Lemma edits_then_submit (env : Env) (srcs : list Hit) (o : outcome) :
  forall (d : Hit) (st : State),
    editingDocument st = Some d ->
    updateDocuments_calls
      (snd (run JSON_parse
              (List.map (fun src => (env, EditDocumentJsonEditorUpdate src)) srcs
               ++ [(env, SubmitDocumentUpdate o)]) st))
    = [[JObject (List.last srcs d)]].
Proof.
  induction srcs as [|src srcs IH]; intros d st H.
  - cbn [List.map app run handle fst snd]. unfold trace.
    unfold onSubmitDocumentUpdate, bind, get. rewrite H.
    rewrite editDocumentMutation_run. destruct o; reflexivity.
  - cbn [List.map app run handle fst snd].
    change (trace (onEditDocumentJsonEditorUpdate src) st) with (@nil effect).
    cbn [app]. rewrite (IH src); [|reflexivity].
    rewrite last_cons_default. reflexivity.
Qed.

(** X9.  The update endpoint receives what the JSON editor showed last:
    after a click on Update and any number of edits, the submit calls the
    endpoint once, with the one-element array of the last edited version
    (the clicked document when nothing was edited). *)
Theorem update_sends_last_edit (env : Env) (doc : Hit) (srcs : list Hit)
    (o : outcome) (st : State) :
  updateDocuments_calls (snd (run JSON_parse (edit_session env doc srcs o) st))
  = [[JObject (List.last srcs doc)]].
Proof.
  unfold edit_session. cbn [run handle fst snd].
  change (trace (onClickDocumentUpdate doc) st) with (@nil effect).
  cbn [app]. rewrite (edits_then_submit env srcs o doc); reflexivity.
Qed.

(** X10.  Closing the edit modal forgets the document under edit: a
    submit after it calls no endpoint and changes nothing. *)
Theorem close_edit_modal_forgets_document (env env' : Env) (o : outcome)
    (st : State) :
  editingDocument (state_after onCloseEditDocumentsModal st) = None
  /\ isEditDocumentsModalOpen (state_after onCloseEditDocumentsModal st) = false
  /\ onSubmitDocumentUpdate o (state_after onCloseEditDocumentsModal st)
     = (Normal tt, state_after onCloseEditDocumentsModal st, [])
  /\ snd (run JSON_parse
            [(env, CloseEditDocumentsModal); (env', SubmitDocumentUpdate o)] st)
     = [].
Proof. repeat split. Qed.

End Composition.

(** ** Invariants of a session *)

(** One action, case by case: the forms' submits, the delete click and the
    modal's answer are replaced by what they compute. *)
Ltac handle_cases :=
  unfold trace, state_after;
  rewrite ?submitSearchForm_run, ?submitAddDocumentsForm_run,
    ?onClickDocumentDel_run, ?answerConfirmModal_run;
  unfold onSubmitDocumentUpdate, bind, get;
  repeat match goal with
    | |- context [match searchForm_validate_limit ?v with _ => _ end] =>
        destruct (searchForm_validate_limit v)
    | |- context [match addDocumentsForm_documents ?s with _ => _ end] =>
        destruct (addDocumentsForm_documents s) eqn:?
    | |- context [match editingDocument ?s with _ => _ end] =>
        destruct (editingDocument s) eqn:?
    | |- context [match indexPrimaryKeyQuery_data ?e with _ => _ end] =>
        destruct (indexPrimaryKeyQuery_data e) as [[|? ?]|] eqn:?
    | |- context [match confirmModal ?s with _ => _ end] =>
        destruct (confirmModal s) as [[?]|] eqn:?
    | |- context [match ?a with Confirm => _ | Cancel => _ end] => destruct a
    end;
  rewrite ?addDocumentsMutation_run, ?removeDocumentsMutation_run,
    ?editDocumentMutation_run;
  repeat match goal with
    | |- context [match ?o with Fulfilled _ => _ | Rejected _ => _ end] =>
        destruct o
    end;
  cbn [fst snd].

Lemma count_debug (p : effect -> bool) (tr : list effect) :
  (forall l, p (ConsoleDebug l) = false) ->
  Forall (fun e => exists l, e = ConsoleDebug l) tr -> count p tr = 0%nat.
Proof.
  intros Hp H. induction H as [|e tr [l ->] _ IH]; [reflexivity|].
  unfold count in *. simpl. rewrite Hp. exact IH.
Qed.

Lemma omap_debug {A} (f : effect -> option A) (tr : list effect) :
  (forall l, f (ConsoleDebug l) = None) ->
  Forall (fun e => exists l, e = ConsoleDebug l) tr -> omap f tr = [].
Proof.
  intros Hf H. induction H as [|e tr [l ->] _ IH]; [reflexivity|].
  simpl. rewrite Hf. exact IH.
Qed.

Section Invariants.

Variable JSON_parse : js_string -> option json.

Lemma onAddDocumentsClick_no_calls (clipboard : clipboard_read) (st : State) :
  addDocuments_calls (trace (onAddDocumentsClick JSON_parse clipboard) st) = []
  /\ updateDocuments_calls (trace (onAddDocumentsClick JSON_parse clipboard) st) = [].
Proof.
  destruct (onAddDocumentsClick_run JSON_parse clipboard st) as [_ H].
  split; apply omap_debug; auto.
Qed.

Lemma handle_add_calls (env : Env) (ev : event) (st : State)
    (docs : list json) :
  In docs (addDocuments_calls (trace (handle JSON_parse env ev) st)) ->
  docs = addDocumentsForm_documents st /\ docs <> [].
Proof.
  destruct ev; cbn [handle];
    try (destruct (onAddDocumentsClick_no_calls clipboard st) as [-> _];
         intros []);
    handle_cases; simpl; try tauto;
    intros [<-|[]]; split; auto; discriminate.
Qed.

Lemma handle_documents (env : Env) (ev : event) (st : State) :
  addDocumentsForm_documents (state_after (handle JSON_parse env ev) st)
    = addDocumentsForm_documents st
  \/ addDocumentsForm_documents (state_after (handle JSON_parse env ev) st) = []
  \/ ev = AddDocumentsJsonEditorUpdate
            (addDocumentsForm_documents (state_after (handle JSON_parse env ev) st))
  \/ exists clipboard,
       ev = AddDocumentsClick clipboard
       /\ default_batch (clipboard_text clipboard ≫= JSON_parse)
          = Some (addDocumentsForm_documents
                    (state_after (handle JSON_parse env ev) st)).
Proof.
  destruct ev; cbn [handle];
    try (destruct (onAddDocumentsClick_run JSON_parse clipboard st) as [-> _];
         destruct (default_batch _) as [arr|] eqn:E; [|left; reflexivity];
         right; right; right; exists clipboard; split; [reflexivity | exact E]);
    handle_cases; cbn; auto.
Qed.

(** Whatever holds of the batch in the form and of every batch the editor
    or the clipboard puts there later holds of every batch sent to the add
    endpoint; and no batch sent is empty. *)
Lemma run_add_calls (P : list json -> Prop) (evs : list (Env * event)) :
  forall st,
    (addDocumentsForm_documents st = [] \/ P (addDocumentsForm_documents st)) ->
    (forall env src, In (env, AddDocumentsJsonEditorUpdate src) evs -> P src) ->
    (forall env clipboard arr, In (env, AddDocumentsClick clipboard) evs ->
       default_batch (clipboard_text clipboard ≫= JSON_parse) = Some arr -> P arr) ->
    forall docs, In docs (addDocuments_calls (snd (run JSON_parse evs st))) ->
      docs <> [] /\ P docs.
Proof.
  induction evs as [|[env ev] evs IH]; intros st Hst He Hc docs; cbn [run snd].
  - intros [].
  - unfold addDocuments_calls. rewrite omap_app, in_app_iff. intros [Hin|Hin].
    + apply handle_add_calls in Hin as [-> Hne]. split; [exact Hne|].
      destruct Hst as [Hst|Hst]; [congruence | exact Hst].
    + apply (IH (state_after (handle JSON_parse env ev) st)); auto.
      * destruct (handle_documents env ev st) as [E|[E|[E|(cb & E1 & E2)]]].
        -- rewrite E. exact Hst.
        -- left. exact E.
        -- right. apply (He env). left. rewrite E at 1. reflexivity.
        -- right. apply (Hc env cb); [left; rewrite E1; reflexivity | exact E2].
      * intros env' src Hin'. apply (He env'). right. exact Hin'.
      * intros env' cb arr Hin'. apply (Hc env'). right. exact Hin'.
Qed.

Lemma handle_update_calls (env : Env) (ev : event) (st : State)
    (docs : list json) :
  In docs (updateDocuments_calls (trace (handle JSON_parse env ev) st)) ->
  exists doc, editingDocument st = Some doc /\ docs = [JObject doc].
Proof.
  destruct ev; cbn [handle];
    try (destruct (onAddDocumentsClick_no_calls clipboard st) as [_ ->];
         intros []);
    handle_cases; simpl; try tauto;
    intros [<-|[]]; eauto.
Qed.

Lemma handle_editingDocument (env : Env) (ev : event) (st : State) :
  editingDocument (state_after (handle JSON_parse env ev) st) = editingDocument st
  \/ editingDocument (state_after (handle JSON_parse env ev) st) = None
  \/ exists doc,
       editingDocument (state_after (handle JSON_parse env ev) st) = Some doc
       /\ (ev = ClickDocumentUpdate doc \/ ev = EditDocumentJsonEditorUpdate doc).
Proof.
  destruct ev; cbn [handle];
    try (destruct (onAddDocumentsClick_run JSON_parse clipboard st) as [-> _];
         destruct (default_batch _); left; reflexivity);
    handle_cases; cbn; auto;
    (right; right; eexists; split; [reflexivity | auto]).
Qed.

Lemma run_update_calls (P : Hit -> Prop) (evs : list (Env * event)) :
  forall st,
    (forall doc, editingDocument st = Some doc -> P doc) ->
    (forall env doc, In (env, ClickDocumentUpdate doc) evs -> P doc) ->
    (forall env doc, In (env, EditDocumentJsonEditorUpdate doc) evs -> P doc) ->
    forall docs, In docs (updateDocuments_calls (snd (run JSON_parse evs st))) ->
      exists doc, docs = [JObject doc] /\ P doc.
Proof.
  induction evs as [|[env ev] evs IH]; intros st Hst Hc He docs; cbn [run snd].
  - intros [].
  - unfold updateDocuments_calls. rewrite omap_app, in_app_iff. intros [Hin|Hin].
    + apply handle_update_calls in Hin as (doc & Hd & ->). eauto.
    + apply (IH (state_after (handle JSON_parse env ev) st)); auto.
      * intros doc Hdoc.
        destruct (handle_editingDocument env ev st) as [E|[E|(d & E & Hev)]].
        -- apply Hst. congruence.
        -- congruence.
        -- assert (d = doc) as -> by congruence.
           destruct Hev as [->| ->]; [apply (Hc env) | apply (He env)]; left;
             reflexivity.
      * intros env' doc Hin'. apply (Hc env'). right. exact Hin'.
      * intros env' doc Hin'. apply (He env'). right. exact Hin'.
Qed.

(** X13.  In every session, no empty batch is ever sent to the add
    endpoint, and every batch sent was put into the form by the JSON
    editor or taken from the clipboard as its default batch. *)
Theorem addDocuments_batches (evs : list (Env * event)) (docs : list json) :
  In docs (addDocuments_calls (snd (run JSON_parse evs initialState))) ->
  docs <> []
  /\ ((exists env, In (env, AddDocumentsJsonEditorUpdate docs) evs)
      \/ exists env clipboard,
           In (env, AddDocumentsClick clipboard) evs
           /\ default_batch (clipboard_text clipboard ≫= JSON_parse) = Some docs).
Proof.
  apply (run_add_calls
           (fun docs =>
              (exists env, In (env, AddDocumentsJsonEditorUpdate docs) evs)
              \/ exists env clipboard,
                   In (env, AddDocumentsClick clipboard) evs
                   /\ default_batch (clipboard_text clipboard ≫= JSON_parse)
                      = Some docs)).
  - left. reflexivity.
  - intros env src Hin. left. eauto.
  - intros env cb arr Hin E. right. eauto.
Qed.

(** X14.  In every session, each call of the update endpoint carries
    exactly one document, and that document is one the user clicked Update
    on or a version of it from the JSON editor. *)
Theorem updateDocuments_single_document (evs : list (Env * event))
    (docs : list json) :
  In docs (updateDocuments_calls (snd (run JSON_parse evs initialState))) ->
  exists doc,
    docs = [JObject doc]
    /\ exists env, In (env, ClickDocumentUpdate doc) evs
                   \/ In (env, EditDocumentJsonEditorUpdate doc) evs.
Proof.
  apply (run_update_calls
           (fun doc => exists env, In (env, ClickDocumentUpdate doc) evs
                                   \/ In (env, EditDocumentJsonEditorUpdate doc) evs)).
  - discriminate.
  - intros env doc Hin. eauto.
  - intros env doc Hin. eauto.
Qed.

End Invariants.

Section Bounds.

Variable JSON_parse : js_string -> option json.

(** What one action sends to the delete endpoint and which modal it
    leaves on screen. *)
Lemma handle_delete_summary (env : Env) (ev : event) (st : State) :
  deleteDocuments_calls (trace (handle JSON_parse env ev) st)
  = match ev, confirmModal st with
    | AnswerConfirmModal Confirm _, Some (RemoveDocumentsMutate docId) => [docId]
    | _, _ => []
    end
  /\ confirmModal (state_after (handle JSON_parse env ev) st)
     = match ev with
       | ClickDocumentDel doc =>
           match indexPrimaryKeyQuery_data env with
           | Some (c :: pk) => Some (RemoveDocumentsMutate [prop doc (c :: pk)])
           | _ => confirmModal st
           end
       | AnswerConfirmModal _ _ => None
       | _ => confirmModal st
       end.
Proof.
  destruct ev; cbn [handle];
    try (destruct (onAddDocumentsClick_frame JSON_parse clipboard st)
           as (-> & _ & H);
         split; [apply omap_debug; auto | reflexivity]);
    handle_cases; cbn; split;
    first [reflexivity | assumption | congruence].
Qed.

Lemma handle_delete_bound (env : Env) (ev : event) (st : State) :
  (length (deleteDocuments_calls (trace (handle JSON_parse env ev) st))
   <= (if is_confirm (env, ev) then 1 else 0))%nat
  /\ (length (deleteDocuments_calls (trace (handle JSON_parse env ev) st))
      + modal_open (state_after (handle JSON_parse env ev) st)
      <= modal_open st + (if is_delete_click (env, ev) then 1 else 0))%nat.
Proof.
  destruct (handle_delete_summary env ev st) as [-> H].
  unfold modal_open. rewrite H. unfold is_confirm, is_delete_click. cbn [fst snd].
  destruct ev; try (destruct (confirmModal st) as [[ids]|]; simpl; lia).
  - destruct (indexPrimaryKeyQuery_data env) as [[|c pk]|];
      destruct (confirmModal st) as [[ids]|]; simpl; lia.
  - destruct a; destruct (confirmModal st) as [[ids]|]; simpl; lia.
Qed.

(** X15.  Every deletion needs a click and a confirmation of its own: in
    every session the number of calls of the delete endpoint is at most
    the number of confirmations, and at most the number of clicks on
    Delete made while a primary key was known (plus one if a modal was
    already on screen). *)
Theorem deletions_bounded (evs : list (Env * event)) (st : State) :
  (length (deleteDocuments_calls (snd (run JSON_parse evs st)))
   <= length (List.filter is_confirm evs))%nat
  /\ (length (deleteDocuments_calls (snd (run JSON_parse evs st)))
      + modal_open (fst (run JSON_parse evs st))
      <= modal_open st + length (List.filter is_delete_click evs))%nat.
Proof.
  revert st. induction evs as [|[env ev] evs IH]; intros st.
  - simpl. lia.
  - cbn [run fst snd List.filter].
    unfold deleteDocuments_calls. rewrite omap_app, length_app.
    fold (deleteDocuments_calls (trace (handle JSON_parse env ev) st)).
    fold (deleteDocuments_calls
            (snd (run JSON_parse evs (state_after (handle JSON_parse env ev) st)))).
    destruct (handle_delete_bound env ev st) as [H1 H2].
    destruct (IH (state_after (handle JSON_parse env ev) st)) as [G1 G2].
    destruct (is_confirm (env, ev)), (is_delete_click (env, ev)); simpl; lia.
Qed.

Lemma handle_edit_modal (env : Env) (ev : event) (st : State) :
  edit_modal_has_document st ->
  edit_modal_has_document (state_after (handle JSON_parse env ev) st).
Proof.
  unfold edit_modal_has_document.
  destruct ev; cbn [handle];
    try (destruct (onAddDocumentsClick_run JSON_parse clipboard st) as [-> _];
         destruct (default_batch _); exact (fun H => H));
    handle_cases; cbn; auto; try discriminate; congruence.
Qed.

Lemma run_edit_modal (evs : list (Env * event)) :
  forall st, edit_modal_has_document st ->
             edit_modal_has_document (fst (run JSON_parse evs st)).
Proof.
  induction evs as [|[env ev] evs IH]; intros st H; [exact H|].
  cbn [run fst]. apply IH, handle_edit_modal, H.
Qed.

(** X16.  In every state a session of the page can reach, an open edit
    modal has a document under edit, so the Submit button of the open
    modal always calls the update endpoint, with that one document. *)
Theorem open_edit_modal_submits (evs : list (Env * event)) (o : outcome) :
  isEditDocumentsModalOpen (fst (run JSON_parse evs initialState)) = true ->
  exists doc,
    editingDocument (fst (run JSON_parse evs initialState)) = Some doc
    /\ updateDocuments_calls
         (trace (onSubmitDocumentUpdate o) (fst (run JSON_parse evs initialState)))
       = [[JObject doc]].
Proof.
  intros H. pose proof (run_edit_modal evs initialState) as Hinv.
  unfold edit_modal_has_document in Hinv.
  destruct (editingDocument (fst (run JSON_parse evs initialState)))
    as [doc|] eqn:E.
  - exists doc. split; [reflexivity|].
    unfold trace, onSubmitDocumentUpdate, bind, get. rewrite E.
    rewrite editDocumentMutation_run. destruct o; reflexivity.
  - exfalso. apply Hinv; [discriminate | exact H | reflexivity].
Qed.

(** X17.  The list shows one block per hit, in order, keyed by position,
    and the buttons of a block act on the hit the block shows: a click on
    Delete in the block at position [i], confirmed, sends the value of
    that hit at the primary key, and a click on Update followed by Submit
    sends that hit. *)
Theorem docList_buttons (hits : list Hit) (i : nat) (d : Hit) :
  hits !! i = Some d ->
  exists rows row,
    docList (Some hits) = Some rows
    /\ length rows = length hits
    /\ rows !! i = Some row
    /\ row_key row = i /\ row_src row = d
    /\ (forall env env' pk o st,
          indexPrimaryKeyQuery_data env = Some pk -> pk <> [] ->
          deleteDocuments_calls
            (snd (run JSON_parse
                    [(env, row_onDelete row);
                     (env', AnswerConfirmModal Confirm o)] st))
          = [[prop d pk]])
    /\ (forall env env' o st,
          updateDocuments_calls
            (snd (run JSON_parse
                    [(env, row_onUpdate row); (env', SubmitDocumentUpdate o)] st))
          = [[JObject d]]).
Proof.
  intros H. unfold docList. simpl.
  eexists. eexists. split; [reflexivity|].
  split; [apply length_imap|].
  split; [rewrite list_lookup_imap, H; reflexivity|].
  split; [reflexivity|]. split; [reflexivity|]. split.
  - intros env env' pk o st Hpk Hne. cbn [row_onDelete run handle fst snd].
    unfold trace, state_after. rewrite onClickDocumentDel_run, Hpk.
    destruct pk as [|c pk]; [congruence|]. cbn [fst snd].
    rewrite answerConfirmModal_run. cbn.
    destruct o; reflexivity.
  - intros env env' o st. cbn [row_onUpdate run handle fst snd].
    destruct o; reflexivity.
Qed.

End Bounds.


(** ** The properties at sample inputs *)

Lemma add_rejected_then_edited_witness :
  addDocuments_calls
    (snd (run (fun _ => None)
            [(env_pk None, AddDocumentsSubmit (Fulfilled (EnqueuedTask 4)));
             (env_pk None, AddDocumentsJsonEditorUpdate [JObject doc_id_1]);
             (env_pk None, AddDocumentsSubmit (Fulfilled (EnqueuedTask 5)))]
            (with_documents [])))
  = [[JObject doc_id_1]].
Proof.
  apply (add_rejected_then_edited (fun _ => None) (env_pk None) (env_pk None)
           (env_pk None) (JObject doc_id_1) [] (Fulfilled (EnqueuedTask 4))
           (Fulfilled (EnqueuedTask 5)) (with_documents [])).
  reflexivity.
Defined.

Lemma addDocuments_batches_witness :
  [JObject doc_id_1] <> []
  /\ ((exists env, In (env, AddDocumentsJsonEditorUpdate [JObject doc_id_1]) add_session)
      \/ exists env clipboard,
           In (env, AddDocumentsClick clipboard) add_session
           /\ default_batch (clipboard_text clipboard ≫= (fun _ => None))
              = Some [JObject doc_id_1]).
Proof.
  apply (addDocuments_batches (fun _ => None) add_session [JObject doc_id_1]).
  left. reflexivity.
Defined.

Lemma updateDocuments_single_document_witness :
  exists doc,
    [JObject doc_id_1] = [JObject doc]
    /\ exists env,
        In (env, ClickDocumentUpdate doc)
          (edit_session (env_pk None) doc_id_1 [] (Fulfilled (EnqueuedTask 6)))
        \/ In (env, EditDocumentJsonEditorUpdate doc)
             (edit_session (env_pk None) doc_id_1 [] (Fulfilled (EnqueuedTask 6))).
Proof.
  apply (updateDocuments_single_document (fun _ => None)
           (edit_session (env_pk None) doc_id_1 [] (Fulfilled (EnqueuedTask 6)))).
  left. reflexivity.
Defined.

Lemma open_edit_modal_submits_witness :
  exists doc,
    editingDocument (fst (run (fun _ => None) update_click_session initialState))
      = Some doc
    /\ updateDocuments_calls
         (trace (onSubmitDocumentUpdate (Fulfilled (EnqueuedTask 6)))
            (fst (run (fun _ => None) update_click_session initialState)))
       = [[JObject doc]].
Proof.
  apply (open_edit_modal_submits (fun _ => None) update_click_session).
  reflexivity.
Defined.

Lemma docList_buttons_witness :
  exists rows row,
    docList (Some [doc_id_1]) = Some rows
    /\ length rows = length [doc_id_1]
    /\ rows !! 0%nat = Some row
    /\ row_key row = 0%nat /\ row_src row = doc_id_1
    /\ (forall env env' pk o st,
          indexPrimaryKeyQuery_data env = Some pk -> pk <> [] ->
          deleteDocuments_calls
            (snd (run (fun _ => None)
                    [(env, row_onDelete row);
                     (env', AnswerConfirmModal Confirm o)] st))
          = [[prop doc_id_1 pk]])
    /\ (forall env env' o st,
          updateDocuments_calls
            (snd (run (fun _ => None)
                    [(env, row_onUpdate row); (env', SubmitDocumentUpdate o)] st))
          = [[JObject doc_id_1]]).
Proof.
  apply (docList_buttons (fun _ => None) [doc_id_1] 0 doc_id_1).
  reflexivity.
Defined.


(** ** Requests in flight *)

(** The two halves put together are [mutate]: each handler that calls a
    mutation is its request followed, when a request was issued, by the
    settling of that request. *)
Lemma mutate_request_settle (o : outcome) (st : State) :
  (forall docs, addDocumentsMutation docs o st
                = (mutate_request Call_addDocuments docs ;; settle AddRequest o) st)
  /\ (forall docId, removeDocumentsMutation docId o st
                    = (mutate_request Call_deleteDocuments docId ;;
                       settle RemoveRequest o) st)
  /\ (forall docs, editDocumentMutation docs o st
                   = (mutate_request Call_updateDocuments docs ;;
                      settle EditRequest o) st).
Proof. destruct o; repeat split. Qed.

Lemma submitAddDocumentsForm_request_run (st : State) :
  submitAddDocumentsForm_request st =
  match addDocumentsForm_documents st with
  | [] => (Normal tt, set_addDocumentsForm [] (Some documents_message) st,
           [ShowNotification (js "yellow") documents_message])
  | d :: ds => (Normal tt, set_addDocumentsForm (d :: ds) None st,
                [Call_addDocuments (d :: ds)])
  end.
Proof.
  unfold submitAddDocumentsForm_request, addDocumentsForm_onSubmit, bind, get.
  rewrite addDocumentsForm_validate_documents_run.
  destruct (addDocumentsForm_documents st) as [|d ds]; reflexivity.
Qed.

Lemma handlers_request_settle (o : outcome) (st : State) :
  submitAddDocumentsForm o st
  = match addDocumentsForm_documents st with
    | [] => submitAddDocumentsForm_request st
    | _ :: _ => (submitAddDocumentsForm_request ;; settle AddRequest o) st
    end
  /\ onSubmitDocumentUpdate o st
     = match editingDocument st with
       | None => onSubmitDocumentUpdate_request st
       | Some _ => (onSubmitDocumentUpdate_request ;; settle EditRequest o) st
       end
  /\ (forall a, answerConfirmModal a o st
                = match confirmModal st, a with
                  | Some _, Confirm =>
                      (answerConfirmModal_request Confirm ;;
                       settle RemoveRequest o) st
                  | _, _ => answerConfirmModal_request a st
                  end).
Proof.
  split; [|split].
  - rewrite submitAddDocumentsForm_run. unfold bind at 1.
    rewrite submitAddDocumentsForm_request_run.
    destruct (addDocumentsForm_documents st) as [|d ds]; [reflexivity|].
    rewrite addDocumentsMutation_run. destruct o; reflexivity.
  - unfold onSubmitDocumentUpdate, onSubmitDocumentUpdate_request, bind, get.
    destruct (editingDocument st) as [doc|]; [|reflexivity].
    rewrite editDocumentMutation_run. destruct o; reflexivity.
  - intros a. rewrite answerConfirmModal_run.
    unfold answerConfirmModal_request, bind, get.
    destruct (confirmModal st) as [[docId]|]; [|destruct a; reflexivity].
    destruct a; [|reflexivity].
    rewrite removeDocumentsMutation_run. destruct o; reflexivity.
Qed.

Lemma count_is_call (tr : list effect) :
  count is_call tr = length (requests_issued tr).
Proof.
  unfold count, requests_issued.
  induction tr as [|e tr IH]; [reflexivity|].
  destruct e; simpl; rewrite ?IH; reflexivity.
Qed.

Lemma remove_request_length (r : request) (l : list request) :
  existsb (request_eqb r) l = true ->
  S (length (remove_request r l)) = length l.
Proof.
  induction l as [|r' l IH]; simpl; [discriminate|].
  destruct (request_eqb r r'); simpl; [reflexivity|].
  intros H. rewrite IH; [reflexivity | exact H].
Qed.

(** When a request settles, one task notification is shown and no
    endpoint is called. *)
Lemma settle_reports (r : request) (o : outcome) (st : State) :
  count is_task_notification (trace (settle r o) st) = 1%nat
  /\ requests_issued (trace (settle r o) st) = [].
Proof. destruct r, o; split; reflexivity. Qed.

Section Runs.

Variable JSON_parse : js_string -> option json.

(** No action of the user shows a task notification by itself. *)
Lemma perform_user_action (env : Env) (a : action) (st : State) :
  (forall r o, a <> Settles r o) ->
  count is_task_notification (trace (perform JSON_parse env a) st) = 0%nat.
Proof.
  intros Ha. destruct a; cbn [perform];
    try (destruct (onAddDocumentsClick_run JSON_parse clipboard st) as [_ H];
         apply (count_debug is_task_notification); [reflexivity | exact H]);
    try (exfalso; eapply Ha; reflexivity);
    unfold trace;
    rewrite ?submitSearchForm_run, ?submitAddDocumentsForm_request_run,
      ?onClickDocumentDel_run;
    unfold onSubmitDocumentUpdate_request, answerConfirmModal_request, bind, get;
    repeat match goal with
      | |- context [match searchForm_validate_limit ?v with _ => _ end] =>
          destruct (searchForm_validate_limit v)
      | |- context [match addDocumentsForm_documents ?s with _ => _ end] =>
          destruct (addDocumentsForm_documents s)
      | |- context [match editingDocument ?s with _ => _ end] =>
          destruct (editingDocument s)
      | |- context [match indexPrimaryKeyQuery_data ?e with _ => _ end] =>
          destruct (indexPrimaryKeyQuery_data e) as [[|? ?]|]
      | |- context [match confirmModal ?s with _ => _ end] =>
          destruct (confirmModal s) as [[?]|]
      | |- context [match ?a with Confirm => _ | Cancel => _ end] => destruct a
      end;
    reflexivity.
Qed.

Lemma step_balanced (env : Env) (a : action) (c c' : config) :
  step JSON_parse env a c = Some c' -> balanced c -> balanced c'.
Proof.
  unfold step, balanced. destruct (possible a c) eqn:Hp; [|discriminate].
  intros [= <-] Hc. cbn [log in_flight].
  rewrite !count_app, length_app, Hc, count_is_call.
  destruct a;
    try (rewrite perform_user_action by discriminate; lia).
  cbn [perform]. destruct (settle_reports r o (page c)) as [-> ->].
  cbn [possible] in Hp. apply remove_request_length in Hp. simpl. lia.
Qed.

Lemma exec_balanced (acts : list (Env * action)) :
  forall c c', exec JSON_parse acts c = Some c' -> balanced c -> balanced c'.
Proof.
  induction acts as [|[env a] acts IH]; intros c c'; cbn [exec].
  - intros [= <-] H. exact H.
  - destruct (step JSON_parse env a c) as [c1|] eqn:E; [|discriminate].
    intros H Hc. apply (IH c1 c' H). exact (step_balanced env a c c1 E Hc).
Qed.

(** X12.  Every request is reported exactly once, when it settles: at
    every point of every run of the page, the number of calls of the add,
    delete and update endpoints is the number of task notifications
    (submitted or failed) shown so far plus the number of requests still
    in flight. *)
Theorem requests_reported_when_settled (acts : list (Env * action))
    (st : State) (c : config) :
  exec JSON_parse acts (start st) = Some c ->
  count is_call (log c)
  = (count is_task_notification (log c) + length (in_flight c))%nat.
Proof.
  intros H. apply (exec_balanced acts (start st) c H). reflexivity.
Qed.

(** X6.  Submits of the add form are not deduplicated, and only the
    response resets the form: with a batch in the form, two submits before
    the response call the add endpoint twice with that batch; once the
    request is fulfilled the form is empty and the modal closed, and a
    further submit is rejected by the validator without a call. *)
Theorem add_submits_not_deduplicated (env1 env2 env3 : Env) (d : json)
    (ds : list json) (t : Task) (st : State) :
  addDocumentsForm_documents st = d :: ds ->
  option_map (fun c => (log c, in_flight c))
    (exec JSON_parse [(env1, SubmitAdd); (env2, SubmitAdd)] (start st))
  = Some ([Call_addDocuments (d :: ds); Call_addDocuments (d :: ds)],
          [AddRequest; AddRequest])
  /\ option_map
       (fun c => (log c, in_flight c, addDocumentsForm_documents (page c),
                  isAddDocumentsModalOpen (page c)))
       (exec JSON_parse
          [(env1, SubmitAdd); (env2, Settles AddRequest (Fulfilled t));
           (env3, SubmitAdd)] (start st))
     = Some ([Call_addDocuments (d :: ds); ShowTaskSubmitNotification t;
              ShowNotification (js "yellow") documents_message],
             [], [], false).
Proof.
  intros H. cbn [exec step possible start perform in_flight page log].
  unfold trace, state_after.
  rewrite (submitAddDocumentsForm_request_run st), H. cbn [fst snd].
  rewrite !submitAddDocumentsForm_request_run.
  split; reflexivity.
Qed.

End Runs.

Lemma requests_reported_when_settled_witness :
  exists c,
    exec (fun _ => None)
      [(env_pk None, SubmitAdd); (env_pk None, SubmitAdd);
       (env_pk None, Settles AddRequest (Fulfilled (EnqueuedTask 4)))]
      (start (with_documents [JObject doc_id_1])) = Some c
    /\ count is_call (log c) = 2%nat
    /\ count is_task_notification (log c) = 1%nat
    /\ length (in_flight c) = 1%nat
    /\ count is_call (log c)
       = (count is_task_notification (log c) + length (in_flight c))%nat.
Proof.
  eexists. split; [reflexivity|]. split; [reflexivity|].
  split; [reflexivity|]. split; [reflexivity|].
  apply (requests_reported_when_settled (fun _ => None)
           [(env_pk None, SubmitAdd); (env_pk None, SubmitAdd);
            (env_pk None, Settles AddRequest (Fulfilled (EnqueuedTask 4)))]
           (with_documents [JObject doc_id_1])).
  reflexivity.
Defined.

Lemma add_submits_not_deduplicated_witness :
  option_map (fun c => (log c, in_flight c))
    (exec (fun _ => None) [(env_pk None, SubmitAdd); (env_pk None, SubmitAdd)]
       (start (with_documents [JObject doc_id_1])))
  = Some ([Call_addDocuments [JObject doc_id_1];
           Call_addDocuments [JObject doc_id_1]],
          [AddRequest; AddRequest]).
Proof.
  apply (add_submits_not_deduplicated (fun _ => None) (env_pk None) (env_pk None)
           (env_pk None) (JObject doc_id_1) [] (EnqueuedTask 4)
           (with_documents [JObject doc_id_1])).
  reflexivity.
Defined.
